(** * bambu_3mf: a shallow embedding of the 3MF to Bambu Studio converter

    The development follows [scripts/bambu_3mf.py]:
    - the paint-state encoder [encode_paint_color],
    - the extruder mapper and the mesh merger [merge_objects_painted],
    - the component resolver ([_resolve_object], [_parse_sub_model]) and
      the reader [parse_input_3mf], over an explicit store of the Python
      objects that the code shares by reference.

    Python integers are [Z], Python strings are [string], dictionaries that
    are only looked up are [gmap]s and dictionaries whose iteration order is
    observed ([max] over a tally) are insertion-ordered association lists. *)

From Stdlib Require Import ZArith String Ascii List Lia.
From Stdlib Require Import HexadecimalString HexadecimalZ DecimalString DecimalZ.
From stdpp Require Import base option list gmap strings.
From Equations Require Import Equations.

Open Scope string_scope.
Open Scope list_scope.
Open Scope Z_scope.

(** ** Python exceptions and results *)

Inductive exn : Type :=
| KeyError
| ValueError
| TypeError
| ParseError
| RecursionError
| SystemError.

Inductive result (A : Type) : Type :=
| Ok (a : A)
| Raise (e : exn).
Arguments Ok {A} a.
Arguments Raise {A} e.

#[global] Instance result_ret : MRet result := fun A a => Ok a.
#[global] Instance result_bind : MBind result := fun A B k r =>
  match r with
  | Ok a => k a
  | Raise e => Raise e
  end.

(** ** Formatting of integers *)

(** [str.upper] on one character of a hexadecimal numeral: the letters
    [a] to [f] (codes 97 to 102) move down by 32. *)
Definition upper_hex (c : ascii) : ascii :=
  let n := nat_of_ascii c in
  if ((97 <=? n) && (n <=? 102))%nat then ascii_of_nat (n - 32) else c.

Fixpoint string_map (f : ascii -> ascii) (s : string) : string :=
  match s with
  | EmptyString => EmptyString
  | String c s' => String (f c) (string_map f s')
  end.

(** [format(n, "X")]: upper-case hexadecimal, a minus sign when negative. *)
Definition format_X (n : Z) : string :=
  string_map upper_hex (HexadecimalString.NilZero.string_of_int (Z.to_hex_int n)).

(** [f"{n}"] for an integer. *)
Definition str_int (n : Z) : string :=
  DecimalString.NilZero.string_of_int (Z.to_int n).

(** ** Paint-state encoder *)

(** The loop [while ext_value >= 15: nibbles.append("F"); ext_value -= 15],
    returning the final values of both variables. *)
Equations? encode_ext_loop (ext_value : Z) (nibbles : list string)
  : Z * list string by wf (Z.to_nat ext_value) lt :=
  encode_ext_loop ext_value nibbles with decide (15 <= ext_value) := {
    | left _ := encode_ext_loop (ext_value - 15) (nibbles ++ ["F"]);
    | right _ := (ext_value, nibbles) }.
Proof. lia. Qed.

Definition encode_paint_color (state : Z) : string :=
  if state =? 0 then ""
  else if state <=? 2 then
    let nibble := Z.land state 1 * 4 + Z.land (Z.shiftr state 1) 1 * 8 in
    format_X nibble
  else
    let ext_value := state - 3 in
    let nibbles := ["C"] in
    let '(ext_value, nibbles) := encode_ext_loop ext_value nibbles in
    let nibbles := nibbles ++ [format_X ext_value] in
    String.concat "" (rev nibbles).

(** *** The consumer's decoding rule *)

Definition hex_alphabet : string := "0123456789ABCDEF".

(** One upper-case hexadecimal digit, as a character. *)
Definition hex_char (d : Z) : ascii :=
  default "F"%char (String.get (Z.to_nat d) hex_alphabet).

(** The value of an upper-case hexadecimal digit. *)
Definition hex_value (c : ascii) : option Z :=
  option_map Z.of_nat (index 0 (String c EmptyString) hex_alphabet).

(** The decoder lives in the consuming application, not in this repository;
    these two definitions follow the rule the specification documents.
    Extension nibbles, read in serialization order: every nibble equal to 15
    adds 15 and continues, the first other nibble is added and must end the
    string. *)
Fixpoint decode_ext (cs : list ascii) : option Z :=
  match cs with
  | [] => None
  | c :: rest =>
      match hex_value c with
      | None => None
      | Some v =>
          if v =? 15 then option_map (Z.add 15) (decode_ext rest)
          else match rest with [] => Some v | _ => None end
      end
  end.

(** The documented leaf-decoding rule.  An absent attribute is state 0.
    Otherwise the string is un-reversed; its first nibble holds, least
    significant bit first, two split bits (0 for a leaf) and two state bits;
    state bits 3 (the nibble [C]) mark the extended form, whose value is 3
    plus the sum of the extension nibbles. *)
Definition decode_paint_color (s : string) : option Z :=
  match rev (list_ascii_of_string s) with
  | [] => Some 0
  | c :: rest =>
      match hex_value c with
      | None => None
      | Some v =>
          if negb (Z.land v 3 =? 0) then None
          else
            let st := Z.land (Z.shiftr v 2) 1 + 2 * Z.land (Z.shiftr v 3) 1 in
            if st =? 3 then option_map (Z.add 3) (decode_ext rest)
            else match rest with [] => Some st | _ => None end
      end
  end.

(** The character sequence the spec describes for a state [s >= 3], before
    its reversal: the marker, one [F] per full 15 in [ext], the last digit. *)
Definition extended_chars (ext : Z) : list ascii :=
  "C"%char :: repeat "F"%char (Z.to_nat (ext / 15)) ++ [hex_char (ext mod 15)].

(** ** Python builtins used as an interface *)

(** [float(s)] and [int(s)] on an attribute value; [None] stands for the
    [ValueError] the builtin raises on a string it does not accept. *)
Class PyBuiltins : Type := {
  pyfloat : Type;
  py_float : string -> option pyfloat;
  py_int : string -> option Z;
}.

(** ** Insertion-ordered dictionaries keyed by strings

    A Python [dict] whose iteration order is observed.  Assigning to a key
    that is present keeps its position; a new key goes last. *)

Definition odict (V : Type) : Type := list (string * V).

Fixpoint od_get {V} (d : odict V) (k : string) : option V :=
  match d with
  | [] => None
  | (k', v) :: d' => if decide (k' = k) then Some v else od_get d' k
  end.

Fixpoint od_set {V} (d : odict V) (k : string) (v : V) : odict V :=
  match d with
  | [] => [(k, v)]
  | (k', v') :: d' =>
      if decide (k' = k) then (k', v) :: d' else (k', v') :: od_set d' k v
  end.

Definition od_keys {V} (d : odict V) : list string := map fst d.

(** [max(items, key=key)]: the running best is replaced only by a strictly
    greater key, so the first of several maxima is kept.  A key of [None]
    cannot be compared ([TypeError]); no item at all is a [ValueError]. *)
Fixpoint max_from {A} (key : A -> option Z) (best : A) (best_key : option Z)
    (rest : list A) : result A :=
  match rest with
  | [] => Ok best
  | x :: rest' =>
      match key x, best_key with
      | Some kx, Some kb =>
          if kb <? kx then max_from key x (Some kx) rest'
          else max_from key best best_key rest'
      | _, _ => Raise TypeError
      end
  end.

Definition py_max {A} (key : A -> option Z) (items : list A) : result A :=
  match items with
  | [] => Raise ValueError
  | x :: rest => max_from key x (key x) rest
  end.

(** [d[k]] on a dictionary that is only looked up. *)
Definition getitem {K V} `{Countable K} (d : gmap K V) (k : K) : result V :=
  match d !! k with
  | Some v => Ok v
  | None => Raise KeyError
  end.

(** The keys of a tally in the order in which a loop over [cs] creates
    them, starting from the keys [ks]. *)
Definition seen_order (ks cs : list string) : list string :=
  fold_left (fun ks c => if decide (c ∈ ks) then ks else ks ++ [c]) cs ks.

(** ** XML element trees (as [xml.etree.ElementTree] presents them) *)

#[warnings="-register-all"]
Inductive Element : Type :=
| Elem (tag : string) (attrib : gmap string string) (children : list Element).

Definition tag (e : Element) : string := let 'Elem t _ _ := e in t.
Definition attrib (e : Element) : gmap string string := let 'Elem _ a _ := e in a.
Definition children (e : Element) : list Element := let 'Elem _ _ cs := e in cs.

(** [e.get(key)]; [None] is Python's [None]. *)
Definition get (e : Element) (key : string) : option string := attrib e !! key.

(** All elements of the subtree in document order, the root first. *)
Fixpoint subtree (e : Element) : list Element :=
  match e with
  | Elem _ _ cs => e :: flat_map subtree cs
  end.

(** [e.iter(t)], [e.findall(t)] and [e.find(t)]. *)
Definition iter (t : string) (e : Element) : list Element :=
  filter (fun x => tag x = t) (subtree e).
Definition findall (t : string) (e : Element) : list Element :=
  filter (fun x => tag x = t) (children e).
Definition find (t : string) (e : Element) : option Element :=
  head (findall t e).

Definition NS_3MF : string :=
  "http://schemas.microsoft.com/3dmanufacturing/core/2015/02".
Definition NS_P : string :=
  "http://schemas.microsoft.com/3dmanufacturing/production/2015/06".

(** The qualified name [f"{{{ns}}}local"]. *)
Definition qname (ns local : string) : string := "{" +:+ ns +:+ "}" +:+ local.

(** ** Small pieces of Python *)

(** Truth value of an optional string: [None] and [""] are false. *)
Definition truthy (o : option string) : bool :=
  match o with
  | Some s => negb (String.eqb s "")
  | None => false
  end.

(** [a or b] on optional strings. *)
Definition py_or (a b : option string) : option string :=
  if truthy a then a else b.

(** [s.lstrip("/")]. *)
Fixpoint lstrip_slash (s : string) : string :=
  match s with
  | String "/" s' => lstrip_slash s'
  | _ => s
  end.

(** [s.endswith(suffix)]. *)
Definition endswith (s suffix : string) : bool :=
  let n := String.length s in
  let k := String.length suffix in
  (k <=? n)%nat && String.eqb (substring (n - k) k s) suffix.

(** [enumerate(l)]. *)
Definition enumerate {A} (l : list A) : list (Z * A) :=
  imap (fun i x => (Z.of_nat i, x)) l.

(** ** Archives

    The entries of an opened zip file in directory order; the content of an
    entry is its XML tree, or [None] when it is not well-formed XML.
    Opening a name reads the last entry that carries it. *)

Definition ZipFile : Type := list (string * option Element).

Definition namelist (zf : ZipFile) : list string := map fst zf.

Definition zf_entry (zf : ZipFile) (path : string) : option (option Element) :=
  last (map snd (filter (fun entry => fst entry = path) zf)).

(** [ET.parse(zf.open(path)).getroot()]. *)
Definition parse_part (zf : ZipFile) (path : string) : result Element :=
  match zf_entry zf path with
  | None => Raise KeyError
  | Some None => Raise ParseError
  | Some (Some root) => Ok root
  end.

Definition _find_model_path (zf : ZipFile) : result string :=
  let names := namelist zf in
  if decide ("3D/3dmodel.model" ∈ names) then Ok "3D/3dmodel.model"
  else
    match List.find (fun name => endswith name ".model") names with
    | Some name => Ok name
    | None => Raise ValueError
    end.

Section Model.
Context `{PyBuiltins}.

(** ** Data model *)

Definition Vertex : Type := pyfloat * pyfloat * pyfloat.
Definition Triangle : Type := Z * Z * Z.

Record MeshObject : Type := {
  name : string;
  obj_id : Z;
  vertices : list Vertex;
  triangles : list Triangle;
  color : string;
  transform : string;
}.

(** ** Extruder mapper *)

Definition map_colors_to_extruders (objects : list MeshObject) : gmap string Z :=
  fold_left
    (fun seen obj =>
       match seen !! color obj with
       | Some _ => seen
       | None => <[color obj := Z.of_nat (size seen) + 1]> seen
       end)
    objects ∅.

(** ** Mesh merger *)

(** The first loop of [merge_objects_painted]: the tally of triangles per
    color, continued from the dictionary [color_tri_count]. *)
Definition tally_triangles (color_tri_count : odict Z)
    (objects : list MeshObject) : odict Z :=
  fold_left
    (fun ctc obj =>
       od_set ctc (color obj)
         (default 0 (od_get ctc (color obj)) + Z.of_nat (length (triangles obj))))
    objects color_tri_count.

(** The inner loop [for v1, v2, v3 in obj.triangles]. *)
Definition append_triangles (offset : Z) (pc : string) (tris : list Triangle)
    (acc : list Triangle * list string) : list Triangle * list string :=
  fold_left
    (fun '(all_triangles, paint_colors) '(v1, v2, v3) =>
       (all_triangles ++ [(v1 + offset, v2 + offset, v3 + offset)],
        paint_colors ++ [pc]))
    tris acc.

(** The second loop [for obj in objects], on the three accumulators. *)
Fixpoint merge_loop (extruder_map : gmap string Z) (default_extruder : Z)
    (objects : list MeshObject) (all_vertices : list Vertex)
    (all_triangles : list Triangle) (paint_colors : list string)
  : result (list Vertex * list Triangle * list string) :=
  match objects with
  | [] => Ok (all_vertices, all_triangles, paint_colors)
  | obj :: rest =>
      let offset := Z.of_nat (length all_vertices) in
      let all_vertices := all_vertices ++ vertices obj in
      ext_num ← getitem extruder_map (color obj);
      let pc :=
        if ext_num =? default_extruder then "" else encode_paint_color ext_num in
      let '(all_triangles, paint_colors) :=
        append_triangles offset pc (triangles obj) (all_triangles, paint_colors) in
      merge_loop extruder_map default_extruder rest
        all_vertices all_triangles paint_colors
  end.

Definition merge_objects_painted (objects : list MeshObject)
    (extruder_map : gmap string Z) : result (MeshObject * list string * Z) :=
  let color_tri_count := tally_triangles [] objects in
  default_color ← py_max (od_get color_tri_count) (od_keys color_tri_count);
  default_extruder ← getitem extruder_map default_color;
  '(all_vertices, all_triangles, paint_colors) ←
    merge_loop extruder_map default_extruder objects [] [] [];
  let merged :=
    {| name := "merged";
       obj_id := 1;
       vertices := all_vertices;
       triangles := all_triangles;
       color := default_color;
       transform := match objects with obj :: _ => transform obj | [] => "" end |} in
  Ok (merged, paint_colors, default_extruder).

(** *** What the merger is specified to produce *)

(** Total number of triangles of the objects of color [c]. *)
Definition tri_total (c : string) (objects : list MeshObject) : Z :=
  fold_right
    (fun obj acc =>
       if decide (color obj = c) then Z.of_nat (length (triangles obj)) + acc
       else acc)
    0 objects.

Definition shift_triangle (offset : Z) (t : Triangle) : Triangle :=
  let '(v1, v2, v3) := t in (v1 + offset, v2 + offset, v3 + offset).

(** The triangles of the objects, each object's indices shifted by the
    number of vertices that precede it ([offset] for the first one). *)
Fixpoint shifted_triangles (offset : Z) (objects : list MeshObject)
  : list Triangle :=
  match objects with
  | [] => []
  | obj :: rest =>
      map (shift_triangle offset) (triangles obj)
      ++ shifted_triangles (offset + Z.of_nat (length (vertices obj))) rest
  end.

(** The paint-state string of an object whose color has slot [slot]. *)
Definition paint_tag (default_extruder slot : Z) : string :=
  if decide (slot = default_extruder) then "" else encode_paint_color slot.

(** The paint-state strings of the merged mesh: one block per object, as
    long as the object's triangle list. *)
Definition paint_tags (extruder_map : gmap string Z) (default_extruder : Z)
    (objects : list MeshObject) : list string :=
  concat
    (map (fun obj =>
            repeat (paint_tag default_extruder
                      (default 0 (extruder_map !! color obj)))
              (length (triangles obj)))
       objects).

(** The extruder map has a slot for the color of every object. *)
Definition covers (extruder_map : gmap string Z)
    (objects : list MeshObject) : Prop :=
  forall obj, obj ∈ objects -> is_Some (extruder_map !! color obj).

(** Slots are numbered from 1. *)
Definition one_based (extruder_map : gmap string Z) : Prop :=
  forall c slot, extruder_map !! c = Some slot -> 1 <= slot.

(** Every index of the triangle is below [n]. *)
Definition triangle_below (n : Z) (t : Triangle) : Prop :=
  let '(v1, v2, v3) := t in v1 < n /\ v2 < n /\ v3 < n.

Definition mesh_wf (obj : MeshObject) : Prop :=
  Forall (triangle_below (Z.of_nat (length (vertices obj)))) (triangles obj).

(** ** The store of shared Python objects

    [MeshObject]s and color maps are passed by reference: a reference is an
    index into the store.  The store survives an exception. *)

Record Heap : Type := {
  mesh_store : list MeshObject;
  dict_store : list (gmap (Z * Z) string);
}.

Definition empty_heap : Heap := {| mesh_store := []; dict_store := [] |}.

Definition Py (A : Type) : Type := Heap -> Heap * result A.

#[global] Instance py_ret : MRet Py := fun A a h => (h, Ok a).
#[global] Instance py_bind : MBind Py := fun A B k m h =>
  match m h with
  | (h', Ok a) => k a h'
  | (h', Raise e) => (h', Raise e)
  end.

Definition lift {A} (r : result A) : Py A := fun h => (h, r).

(** [MeshObject(...)]: a new object. *)
Definition new_mesh (m : MeshObject) : Py nat := fun h =>
  ({| mesh_store := mesh_store h ++ [m]; dict_store := dict_store h |},
   Ok (length (mesh_store h))).

(** [mesh_obj] with its [transform] field set to [t]. *)
Definition with_transform (m : MeshObject) (t : string) : MeshObject :=
  {| name := name m; obj_id := obj_id m; vertices := vertices m;
     triangles := triangles m; color := color m; transform := t |}.

(** [mesh_obj.transform = transform], on the object that [r] refers to. *)
Definition set_transform (r : nat) (t : string) : Py () := fun h =>
  match mesh_store h !! r with
  | None => (h, Raise SystemError)
  | Some m =>
      ({| mesh_store := <[r := with_transform m t]> (mesh_store h);
          dict_store := dict_store h |},
       Ok ())
  end.

(** [{}] and [dict(d)]: a new dictionary with the given content. *)
Definition new_dict (d : gmap (Z * Z) string) : Py nat := fun h =>
  ({| mesh_store := mesh_store h; dict_store := dict_store h ++ [d] |},
   Ok (length (dict_store h))).

(** The current content of a dictionary. *)
Definition read_dict (r : nat) : Py (gmap (Z * Z) string) := fun h =>
  match dict_store h !! r with
  | None => (h, Raise SystemError)
  | Some d => (h, Ok d)
  end.

(** [d[k] = v]. *)
Definition dict_setitem (r : nat) (k : Z * Z) (v : string) : Py () := fun h =>
  match dict_store h !! r with
  | None => (h, Raise SystemError)
  | Some d =>
      ({| mesh_store := mesh_store h;
          dict_store := <[r := <[k := v]> d]> (dict_store h) |},
       Ok ())
  end.

(** [d.get(k)]. *)
Definition dict_get (r : nat) (k : Z * Z) : Py (option string) :=
  d ← read_dict r; mret (d !! k).

(** [int(x)] and [float(x)] on the result of [get]: [TypeError] on [None]. *)
Definition int_attr (x : option string) : result Z :=
  match x with
  | None => Raise TypeError
  | Some s => match py_int s with Some n => Ok n | None => Raise ValueError end
  end.

Definition float_attr (x : option string) : result pyfloat :=
  match x with
  | None => Raise TypeError
  | Some s => match py_float s with Some f => Ok f | None => Raise ValueError end
  end.

(** ** Color map builder *)

(** The loop over the [base] children of one [basematerials] group. *)
Fixpoint color_map_bases (color_map : nat) (res_id : Z)
    (bases : list (Z * Element)) : Py () :=
  match bases with
  | [] => mret ()
  | (i, base) :: rest =>
      let display_color := default "#808080" (get base "displaycolor") in
      let display_color :=
        if (String.length display_color =? 9)%nat
        then substring 0 7 display_color else display_color in
      _ ← dict_setitem color_map (res_id, i) display_color;
      color_map_bases color_map res_id rest
  end.

(** The loop over the [basematerials] groups. *)
Fixpoint color_map_groups (color_map : nat) (groups : list Element) : Py () :=
  match groups with
  | [] => mret ()
  | bm :: rest =>
      res_id ← lift (int_attr (get bm "id"));
      _ ← color_map_bases color_map res_id
            (enumerate (findall (qname NS_3MF "base") bm));
      color_map_groups color_map rest
  end.

Definition _extract_color_map (root : Element) : Py nat :=
  color_map ← new_dict ∅;
  _ ← color_map_groups color_map (iter (qname NS_3MF "basematerials") root);
  mret color_map.

(** ** Mesh extractor *)

Fixpoint mesh_vertices (vs : list Element) (vertices : list Vertex)
  : result (list Vertex) :=
  match vs with
  | [] => Ok vertices
  | v :: rest =>
      x ← float_attr (get v "x");
      y ← float_attr (get v "y");
      z ← float_attr (get v "z");
      mesh_vertices rest (vertices ++ [(x, y, z)])
  end.

Fixpoint mesh_triangles (color_map : nat) (ts : list Element)
    (triangles : list Triangle) (color_votes : odict Z)
  : Py (list Triangle * odict Z) :=
  match ts with
  | [] => mret (triangles, color_votes)
  | t :: rest =>
      v1 ← lift (int_attr (get t "v1"));
      v2 ← lift (int_attr (get t "v2"));
      v3 ← lift (int_attr (get t "v3"));
      let triangles := triangles ++ [(v1, v2, v3)] in
      let pid := get t "pid" in
      let p1 := get t "p1" in
      color_votes ←
        (if truthy pid && truthy p1 then
           pid_n ← lift (int_attr pid);
           p1_n ← lift (int_attr p1);
           c ← dict_get color_map (pid_n, p1_n);
           mret (if truthy c
                 then let c := default "" c in
                      od_set color_votes c (default 0 (od_get color_votes c) + 1)
                 else color_votes)
         else mret color_votes);
      mesh_triangles color_map rest triangles color_votes
  end.

Definition _parse_mesh (mesh_elem : Element) (color_map : nat)
  : Py (list Vertex * list Triangle * option string) :=
  vertices ← lift (mesh_vertices (iter (qname NS_3MF "vertex") mesh_elem) []);
  '(triangles, color_votes) ←
    mesh_triangles color_map (iter (qname NS_3MF "triangle") mesh_elem) [] [];
  dominant ←
    lift (match color_votes with
          | [] => Ok None
          | _ =>
              c ← py_max (od_get color_votes) (od_keys color_votes);
              Ok (Some c)
          end);
  mret (vertices, triangles, dominant).

(** [a or b] where [b] is a string. *)
Definition str_or (a : option string) (b : string) : string :=
  if truthy a then default b a else b.

(** The object-level color property of an object element. *)
Definition object_color (obj_elem : Element) (color_map : nat)
  : Py (option string) :=
  let pid := get obj_elem "pid" in
  let pindex := get obj_elem "pindex" in
  if truthy pid && truthy pindex then
    pid_n ← lift (int_attr pid);
    pindex_n ← lift (int_attr pindex);
    dict_get color_map (pid_n, pindex_n)
  else mret None.

(** The [MeshObject] (as a value) of a mesh-bearing object element: its
    color is the object-level one, else the triangle vote, else grey. *)
Definition mesh_object_of (obj_elem mesh_elem : Element) (obj_id : Z)
    (obj_color : option string) (color_map : nat) : Py MeshObject :=
  let obj_name := default ("object_" +:+ str_int obj_id) (get obj_elem "name") in
  '(vertices, triangles, tri_color) ← _parse_mesh mesh_elem color_map;
  mret {| name := obj_name;
          obj_id := obj_id;
          vertices := vertices;
          triangles := triangles;
          color := str_or obj_color (str_or tri_color "#808080");
          transform := "" |}.

(** ** Component resolver *)

(** What [all_objects] holds for an id: a [MeshObject] (by reference) or the
    object element of a components container. *)
Inductive resource : Type :=
| RMesh (r : nat)
| RElem (obj : Element).

(** [{**color_map, **sub_colors}]: the entries of [sub_colors] win. *)
Definition dict_merge (color_map sub_colors : gmap (Z * Z) string)
  : gmap (Z * Z) string :=
  sub_colors ∪ color_map.

(** The loop of [_parse_sub_model] over the object elements of the sub-part;
    it returns from the function at the first element with the wanted id
    that carries a mesh. *)
Fixpoint sub_model_objects (objs : list Element) (ref_id : Z) (merged : nat)
  : Py (list nat) :=
  match objs with
  | [] => mret []
  | obj_elem :: rest =>
      oid ← lift (int_attr (get obj_elem "id"));
      if oid =? ref_id then
        match find (qname NS_3MF "mesh") obj_elem with
        | Some mesh_elem =>
            obj_color ← object_color obj_elem merged;
            m ← mesh_object_of obj_elem mesh_elem oid obj_color merged;
            r ← new_mesh m;
            mret [r]
        | None => sub_model_objects rest ref_id merged
        end
      else sub_model_objects rest ref_id merged
  end.

Definition _parse_sub_model (zf : ZipFile) (sub_path : string) (ref_id : Z)
    (color_map : nat) : Py (list nat) :=
  let sub_path := lstrip_slash sub_path in
  if decide (sub_path ∈ namelist zf) then
    root ← lift (parse_part zf sub_path);
    sub_colors ← _extract_color_map root;
    ambient ← read_dict color_map;
    local ← read_dict sub_colors;
    merged ← new_dict (dict_merge ambient local);
    sub_model_objects (iter (qname NS_3MF "object") root) ref_id merged
  else mret [].

(** The loop of [_resolve_object] over the component references; [resolve]
    is the recursive call for a reference that stays in the current part. *)
Fixpoint resolve_components (resolve : Z -> Py (list nat)) (zf : ZipFile)
    (color_map : nat) (comps : list Element) (results : list nat)
  : Py (list nat) :=
  match comps with
  | [] => mret results
  | comp :: rest =>
      ref_id ← lift (int_attr (get comp "objectid"));
      let p_path := py_or (get comp (qname NS_P "path")) (get comp "path") in
      sub_objects ←
        (if truthy p_path
         then _parse_sub_model zf (default "" p_path) ref_id color_map
         else resolve ref_id);
      resolve_components resolve zf color_map rest (results ++ sub_objects)
  end.

(** [depth] bounds the nesting of the recursive calls; running out of it is
    Python's [RecursionError]. *)
Fixpoint _resolve_object (depth : nat) (obj_id : Z)
    (all_objects : gmap Z resource) (zf : ZipFile) (model_path : string)
    (color_map : nat) : Py (list nat) :=
  match depth with
  | O => lift (Raise RecursionError)
  | S depth' =>
      match all_objects !! obj_id with
      | None => mret []
      | Some (RMesh r) => mret [r]
      | Some (RElem obj) =>
          match find (qname NS_3MF "components") obj with
          | Some components =>
              resolve_components
                (fun ref_id =>
                   _resolve_object depth' ref_id all_objects zf model_path color_map)
                zf color_map
                (findall (qname NS_3MF "component") components) []
          | None => mret []
          end
      end
  end.

(** ** Reader *)

Record ParsedModel : Type := {
  objects : list nat;   (* references to [MeshObject]s, in build order *)
  unit_ : string;       (* the field [unit] *)
}.

(** The loop of [parse_input_3mf] over the object elements of the root part. *)
Fixpoint collect_objects (objs : list Element) (color_map : nat)
    (all_objects : gmap Z resource) : Py (gmap Z resource) :=
  match objs with
  | [] => mret all_objects
  | obj_elem :: rest =>
      obj_id ← lift (int_attr (get obj_elem "id"));
      obj_color ← object_color obj_elem color_map;
      all_objects ←
        match find (qname NS_3MF "mesh") obj_elem with
        | Some mesh_elem =>
            m ← mesh_object_of obj_elem mesh_elem obj_id obj_color color_map;
            r ← new_mesh m;
            mret (<[obj_id := RMesh r]> all_objects)
        | None => mret (<[obj_id := RElem obj_elem]> all_objects)
        end;
      collect_objects rest color_map all_objects
  end.

(** The inner loop [for mesh_obj in resolved]. *)
Fixpoint place_objects (resolved : list nat) (transform : string)
    (build_items : list nat) : Py (list nat) :=
  match resolved with
  | [] => mret build_items
  | mesh_obj :: rest =>
      _ ← set_transform mesh_obj transform;
      place_objects rest transform (build_items ++ [mesh_obj])
  end.

(** The loop over the build items. *)
Fixpoint collect_build_items (depth : nat) (items : list Element)
    (all_objects : gmap Z resource) (zf : ZipFile) (model_path : string)
    (color_map : nat) (build_items : list nat) : Py (list nat) :=
  match items with
  | [] => mret build_items
  | item :: rest =>
      obj_id ← lift (int_attr (get item "objectid"));
      let transform := default "" (get item "transform") in
      resolved ← _resolve_object depth obj_id all_objects zf model_path color_map;
      build_items ← place_objects resolved transform build_items;
      collect_build_items depth rest all_objects zf model_path color_map build_items
  end.

Definition parse_input_3mf (depth : nat) (zf : ZipFile) : Py ParsedModel :=
  model_path ← lift (_find_model_path zf);
  root ← lift (parse_part zf model_path);
  let unit := default "millimeter" (get root "unit") in
  color_map ← _extract_color_map root;
  all_objects ←
    collect_objects (iter (qname NS_3MF "object") root) color_map ∅;
  build_items ←
    collect_build_items depth (iter (qname NS_3MF "item") root)
      all_objects zf model_path color_map [];
  mret {| objects := build_items; unit_ := unit |}.

(** The object sequence of a parsed model, read in the store [h]. *)
Definition model_objects (h : Heap) (model : ParsedModel)
  : list (option MeshObject) :=
  map (fun r => mesh_store h !! r) (objects model).

(** Running the reader on an archive, from an empty store: the objects of
    the parsed model as they are when the reader returns. *)
Definition parsed_objects (depth : nat) (zf : ZipFile)
  : result (list (option MeshObject)) :=
  match parse_input_3mf depth zf empty_heap with
  | (h, Ok model) => Ok (model_objects h model)
  | (_, Raise e) => Raise e
  end.

(** Every dictionary of the store [h] is in [h'] with the same content. *)
Definition dict_frame (h h' : Heap) : Prop :=
  forall r d, dict_store h !! r = Some d -> dict_store h' !! r = Some d.

(** A computation that leaves every dictionary of the store it starts from
    as it is (whatever its outcome). *)
Definition preserves_dicts {A} (m : Py A) : Prop :=
  forall h, dict_frame h (m h).1.

(** A computation that leaves the whole store as it is. *)
Definition read_only {A} (m : Py A) : Prop :=
  forall h, (m h).1 = h.

(** The object element either has another id than [ref_id] or carries no
    mesh (a components container, for one). *)
Definition no_mesh_for (ref_id : Z) (obj_elem : Element) : Prop :=
  exists oid,
    int_attr (get obj_elem "id") = Ok oid
    /\ (oid = ref_id -> find (qname NS_3MF "mesh") obj_elem = None).

(** A computation that writes to no dictionary but [r], and to no
    [MeshObject]. *)
Definition only_sets {A} (r : nat) (m : Py A) : Prop :=
  forall h,
    mesh_store (m h).1 = mesh_store h
    /\ forall l, l <> r -> dict_store (m h).1 !! l = dict_store h !! l.

End Model.

(** ** Concrete inputs

    A reading of the builtins for the examples: [int] on plain decimal
    numerals with an optional minus sign, [float] kept as the text. *)

Definition dec_int (s : string) : option Z :=
  option_map Z.of_int (NilZero.int_of_string s).

Definition plain_builtins : PyBuiltins :=
  {| pyfloat := string; py_float := Some; py_int := dec_int |}.

(** An element of the core namespace. *)
Definition el (local : string) (attrs : list (string * string))
    (cs : list Element) : Element :=
  Elem (qname NS_3MF local) (list_to_map attrs) cs.

Definition vertex (x y z : string) : Element :=
  el "vertex" [("x", x); ("y", y); ("z", z)] [].
Definition triangle (v1 v2 v3 : string) : Element :=
  el "triangle" [("v1", v1); ("v2", v2); ("v3", v3)] [].

(** A mesh with four vertices and two triangles. *)
Definition two_triangle_mesh : Element :=
  el "mesh" []
    [el "vertices" []
       [vertex "0" "0" "0"; vertex "1" "0" "0"; vertex "0" "1" "0";
        vertex "0" "0" "1"];
     el "triangles" [] [triangle "0" "1" "2"; triangle "0" "2" "3"]].

Definition model (resources items : list Element) : Element :=
  el "model" [("unit", "millimeter")]
    [el "resources" [] resources; el "build" [] items].

Definition pt (x y z : string) : @Vertex plain_builtins := (x, y, z).

(** Two objects: color A with 2 triangles, then color B with 5. *)
Definition painted_objects : list (@MeshObject plain_builtins) :=
  [ {| name := "a"; obj_id := 1;
       vertices := [pt "0" "0" "0"; pt "1" "0" "0"; pt "0" "1" "0"];
       triangles := [(0, 1, 2); (0, 2, 1)];
       color := "#AA0000"; transform := "1 0 0 0 1 0 0 0 1 0 0 0" |};
    {| name := "b"; obj_id := 2;
       vertices := [pt "0" "0" "0"; pt "1" "0" "0"; pt "0" "1" "0";
                    pt "0" "0" "1"];
       triangles := [(0, 1, 2); (0, 2, 3); (0, 3, 1); (1, 2, 3); (1, 3, 2)];
       color := "#0000BB"; transform := "" |} ].

(** One mesh object placed by two build items. *)
Definition instanced_zip : ZipFile :=
  [("3D/3dmodel.model",
    Some (model
            [el "object" [("id", "1"); ("name", "cube")] [two_triangle_mesh]]
            [el "item" [("objectid", "1"); ("transform", "1 0 0 0 1 0 0 0 1 0 0 0")] [];
             el "item" [("objectid", "1"); ("transform", "1 0 0 0 1 0 0 0 1 50 0 0")] []]))].

(** A container with one component in the root part and one component that
    names a part the archive does not have. *)
Definition missing_part_zip : ZipFile :=
  [("3D/3dmodel.model",
    Some (model
            [el "object" [("id", "1"); ("name", "cube")] [two_triangle_mesh];
             el "object" [("id", "2")]
               [el "components" []
                  [el "component" [("objectid", "1")] [];
                   el "component"
                     [("objectid", "5"); (qname NS_P "path", "/3D/Objects/gone.model")]
                     []]]]
            [el "item" [("objectid", "2")] []]))].

(** A sub-part that defines material (1, 0), with an alpha channel, and the
    mesh object 5 of that material. *)
Definition sub_part_root : Element :=
  model
    [el "basematerials" [("id", "1")]
       [el "base" [("displaycolor", "#FF0000FF")] []];
     el "object" [("id", "5"); ("pid", "1"); ("pindex", "0")]
       [two_triangle_mesh]]
    [].

(** A container whose component names object 5 of that sub-part; the root
    part defines material (1, 0) too. *)
Definition sub_part_zip : ZipFile :=
  [("3D/3dmodel.model",
    Some (model
            [el "basematerials" [("id", "1")]
               [el "base" [("displaycolor", "#00FF00")] []];
             el "object" [("id", "2")]
               [el "components" []
                  [el "component"
                     [("objectid", "5"); (qname NS_P "path", "/3D/Objects/part.model")]
                     []]]]
            [el "item" [("objectid", "2")] []]));
   ("3D/Objects/part.model", Some sub_part_root)].

(** A store that holds the color map of the root part above. *)
Definition ambient_heap : @Heap plain_builtins :=
  {| mesh_store := []; dict_store := [{[ (1, 0) := "#00FF00" ]}] |}.

(** As above, but object 5 of the sub-part is itself a components container
    whose only child is the mesh object 6 of the same sub-part. *)
Definition nested_zip : ZipFile :=
  [("3D/3dmodel.model",
    Some (model
            [el "object" [("id", "2")]
               [el "components" []
                  [el "component"
                     [("objectid", "5"); (qname NS_P "path", "/3D/Objects/part.model")]
                     []]]]
            [el "item" [("objectid", "2")] []]));
   ("3D/Objects/part.model",
    Some (model
            [el "object" [("id", "6")] [two_triangle_mesh];
             el "object" [("id", "5")]
               [el "components" [] [el "component" [("objectid", "6")] []]]]
            []))].


(** ** Auxiliary notions for the further properties *)

Section MoreModel.
Context `{PyBuiltins}.

(** One iteration of the loop of [map_colors_to_extruders]. *)
Definition assign_slot (seen : gmap string Z) (obj : MeshObject)
  : gmap string Z :=
  match seen !! color obj with
  | Some _ => seen
  | None => <[color obj := Z.of_nat (size seen) + 1]> seen
  end.

(** Number of vertices, and of triangles, of a sequence of objects. *)
Definition vertex_count (objects : list MeshObject) : nat :=
  sum_list_with (fun obj => length (vertices obj)) objects.
Definition triangle_count (objects : list MeshObject) : nat :=
  sum_list_with (fun obj => length (triangles obj)) objects.

(** Every [MeshObject] of the store [h] is in [h'] with the same content. *)
Definition mesh_frame (h h' : Heap) : Prop :=
  forall r m, mesh_store h !! r = Some m -> mesh_store h' !! r = Some m.

(** A computation that changes no [MeshObject] that exists when it starts
    (whatever its outcome). *)
Definition preserves_meshes {A} (m : Py A) : Prop :=
  forall h, mesh_frame h (m h).1.

(** A component reference without a part path, to the object [ref_id]. *)
Definition local_ref (comp : Element) (ref_id : Z) : Prop :=
  int_attr (get comp "objectid") = Ok ref_id
  /\ truthy (py_or (get comp (qname NS_P "path")) (get comp "path")) = false.

(** What an id stands for when it is not a components container: its mesh
    object, or nothing when the id is unknown. *)
Definition mesh_of_id (all_objects : gmap Z resource) (ref_id : Z) : list nat :=
  match all_objects !! ref_id with
  | Some (RMesh r) => [r]
  | _ => []
  end.

Definition not_container (all_objects : gmap Z resource) (ref_id : Z) : Prop :=
  forall obj, all_objects !! ref_id <> Some (RElem obj).

(** A vertex element one of whose coordinates [float] does not accept. *)
Definition bad_vertex (v : Element) : Prop :=
  exists key e,
    key ∈ ["x"; "y"; "z"] /\ float_attr (get v key) = Raise e.

(** The vertex [p] is what the three coordinates of the element parse to. *)
Definition vertex_of (v : Element) (p : Vertex) : Prop :=
  float_attr (get v "x") = Ok p.1.1
  /\ float_attr (get v "y") = Ok p.1.2
  /\ float_attr (get v "z") = Ok p.2.

(** The triangle [t] is what the three indices of the element parse to. *)
Definition triangle_of (e : Element) (t : Triangle) : Prop :=
  int_attr (get e "v1") = Ok t.1.1
  /\ int_attr (get e "v2") = Ok t.1.2
  /\ int_attr (get e "v3") = Ok t.2.

(** A triangle element that casts no color vote: it lacks [pid] or [p1]. *)
Definition no_vote (e : Element) : Prop :=
  truthy (get e "pid") && truthy (get e "p1") = false.


End MoreModel.

(** ** Package emitter *)

(** The double quote and the line feed, and a quoted attribute value. *)
Definition dq : string := String (ascii_of_nat 34) EmptyString.
Definition nl : string := String (ascii_of_nat 10) EmptyString.
Definition q (s : string) : string := dq +:+ s +:+ dq.

(** ["\n".join(lines)]. *)
Definition join_lines (lines : list string) : string := String.concat nl lines.

(** [enumerate(l, 1)] and [range(1, n + 1)]. *)
Definition enumerate1 {A} (l : list A) : list (Z * A) :=
  imap (fun i x => (Z.of_nat i + 1, x)) l.
Definition range1 (n : Z) : list Z := seqZ 1 n.

Definition XML_DECL : string :=
  "<?xml version=" +:+ q "1.0" +:+ " encoding=" +:+ q "UTF-8" +:+ "?>" +:+ nl.

Definition IDENTITY : string := "1 0 0 0 1 0 0 0 1 0 0 0".

Definition REL_3DMODEL : string :=
  "http://schemas.microsoft.com/3dmanufacturing/2013/01/3dmodel".

Definition _build_content_types : string :=
  XML_DECL
  +:+ "<Types xmlns="
  +:+ q "http://schemas.openxmlformats.org/package/2006/content-types"
  +:+ ">" +:+ nl
  +:+ "  <Default Extension=" +:+ q "rels" +:+ " ContentType="
  +:+ q "application/vnd.openxmlformats-package.relationships+xml"
  +:+ " />" +:+ nl
  +:+ "  <Default Extension=" +:+ q "model" +:+ " ContentType="
  +:+ q "application/vnd.ms-package.3dmanufacturing-3dmodel+xml"
  +:+ " />" +:+ nl
  +:+ "  <Default Extension=" +:+ q "png" +:+ " ContentType="
  +:+ q "image/png" +:+ " />" +:+ nl
  +:+ "</Types>".

Definition relationships (rels : list string) : string :=
  XML_DECL
  +:+ "<Relationships xmlns="
  +:+ q "http://schemas.openxmlformats.org/package/2006/relationships"
  +:+ ">" +:+ nl
  +:+ join_lines rels +:+ nl
  +:+ "</Relationships>".

Definition _build_root_rels (has_thumbnails : bool) : string :=
  let rels :=
    ["  <Relationship Target=" +:+ q "/3D/3dmodel.model"
     +:+ " Id=" +:+ q "rel-1" +:+ " Type=" +:+ q REL_3DMODEL +:+ " />"] in
  let rels :=
    if has_thumbnails then
      rels ++
      ["  <Relationship Target=" +:+ q "/Metadata/plate_1.png"
       +:+ " Id=" +:+ q "rel-2" +:+ " Type="
       +:+ q "http://schemas.openxmlformats.org/package/2006/relationships/metadata/thumbnail"
       +:+ " />"]
    else rels in
  relationships rels.

Definition _build_model_rels (num_objects : Z) : string :=
  relationships
    (map (fun i =>
            "  <Relationship Target="
            +:+ q ("/3D/Objects/object_" +:+ str_int i +:+ ".model")
            +:+ " Id=" +:+ q ("rel-" +:+ str_int i)
            +:+ " Type=" +:+ q REL_3DMODEL +:+ " />")
       (range1 num_objects)).

(** The opening of a model part, up to and including the line that ends
    the [model] start tag. *)
Definition model_open (unit : string) : string :=
  XML_DECL
  +:+ "<model unit=" +:+ dq +:+ unit +:+ dq +:+ " xml:lang=" +:+ q "en-US" +:+ nl
  +:+ "  xmlns=" +:+ q NS_3MF +:+ nl
  +:+ "  xmlns:p=" +:+ q NS_P +:+ nl
  +:+ "  requiredextensions=" +:+ q "p" +:+ ">" +:+ nl.

(** The container object [i], whose one component is object 1 of the
    sub-part [object_i.model]. *)
Definition container_object (i : Z) : string :=
  "    <object id=" +:+ q (str_int i) +:+ " type=" +:+ q "model" +:+ ">" +:+ nl
  +:+ "      <components>" +:+ nl
  +:+ "        <component p:path="
  +:+ q ("/3D/Objects/object_" +:+ str_int i +:+ ".model")
  +:+ " objectid=" +:+ q "1" +:+ " transform=" +:+ q IDENTITY +:+ " />" +:+ nl
  +:+ "      </components>" +:+ nl
  +:+ "    </object>".

Definition build_item (i : Z) (transform : string) : string :=
  "    <item objectid=" +:+ q (str_int i) +:+ " transform=" +:+ q transform
  +:+ " printable=" +:+ q "1" +:+ " />".

(** [transform if transform else "1 0 0 0 1 0 0 0 1 0 0 0"]. *)
Definition or_identity (transform : string) : string :=
  if String.eqb transform "" then IDENTITY else transform.

Section Emitter.
Context `{PyBuiltins}.

(** [f"{x}"] for a float. *)
Variable str_float : pyfloat -> string.

Definition _build_main_model (objects : list MeshObject) (unit : string)
  : string :=
  let obj_defs := map (fun '(i, obj) => container_object i) (enumerate1 objects) in
  let items :=
    map (fun '(i, obj) => build_item i (or_identity (transform obj)))
      (enumerate1 objects) in
  model_open unit
  +:+ "  <resources>" +:+ nl
  +:+ join_lines obj_defs +:+ nl
  +:+ "  </resources>" +:+ nl
  +:+ "  <build>" +:+ nl
  +:+ join_lines items +:+ nl
  +:+ "  </build>" +:+ nl
  +:+ "</model>".

Definition _build_main_model_painted (unit transform : string) : string :=
  let xform := or_identity transform in
  model_open unit
  +:+ "  <resources>" +:+ nl
  +:+ container_object 1 +:+ nl
  +:+ "  </resources>" +:+ nl
  +:+ "  <build>" +:+ nl
  +:+ build_item 1 xform +:+ nl
  +:+ "  </build>" +:+ nl
  +:+ "</model>".

(** Failures of the emitter: an index out of range in a list, or one of
    the exceptions above. *)
Inductive emit_error : Type :=
| IndexError
| Raised (e : exn).

(** The attribute text for triangle [i]:
    [if paint_colors and paint_colors[i]] guards the attribute. *)
Definition paint_attr (paint_colors : option (list string)) (i : nat)
  : emit_error + string :=
  match paint_colors with
  | None | Some [] => inr ""
  | Some pcs =>
      match pcs !! i with
      | None => inl IndexError
      | Some pc =>
          if String.eqb pc "" then inr ""
          else inr (" paint_color=" +:+ q pc)
      end
  end.

(** The loop [for i, (v1, v2, v3) in enumerate(obj.triangles)]. *)
Fixpoint triangle_lines (paint_colors : option (list string)) (i : nat)
    (triangles : list Triangle) (tris : list string)
  : emit_error + list string :=
  match triangles with
  | [] => inr tris
  | (v1, v2, v3) :: rest =>
      match paint_attr paint_colors i with
      | inl e => inl e
      | inr pc_attr =>
          triangle_lines paint_colors (S i) rest
            (tris ++
             ["          <triangle v1=" +:+ q (str_int v1)
              +:+ " v2=" +:+ q (str_int v2)
              +:+ " v3=" +:+ q (str_int v3)
              +:+ pc_attr +:+ " />"])
      end
  end.

Definition _build_object_model (obj : MeshObject) (unit : string)
    (paint_colors : option (list string)) : emit_error + string :=
  let verts :=
    map (fun '(x, y, z) =>
           "          <vertex x=" +:+ q (str_float x)
           +:+ " y=" +:+ q (str_float y)
           +:+ " z=" +:+ q (str_float z) +:+ " />")
      (vertices obj) in
  match triangle_lines paint_colors 0 (triangles obj) [] with
  | inl e => inl e
  | inr tris =>
      inr (model_open unit
           +:+ "  <resources>" +:+ nl
           +:+ "    <object id=" +:+ q "1" +:+ " type=" +:+ q "model" +:+ ">" +:+ nl
           +:+ "      <mesh>" +:+ nl
           +:+ "        <vertices>" +:+ nl
           +:+ join_lines verts +:+ nl
           +:+ "        </vertices>" +:+ nl
           +:+ "        <triangles>" +:+ nl
           +:+ join_lines tris +:+ nl
           +:+ "        </triangles>" +:+ nl
           +:+ "      </mesh>" +:+ nl
           +:+ "    </object>" +:+ nl
           +:+ "  </resources>" +:+ nl
           +:+ "  <build />" +:+ nl
           +:+ "</model>")
  end.

Definition metadata (key value : string) : string :=
  "<metadata key=" +:+ q key +:+ " value=" +:+ q value +:+ " />".

Definition MESH_STAT : string :=
  "<mesh_stat edges_fixed=" +:+ q "0" +:+ " degenerate_facets=" +:+ q "0"
  +:+ " facets_removed=" +:+ q "0" +:+ " facets_reversed=" +:+ q "0"
  +:+ " backwards_edges=" +:+ q "0" +:+ " />".

Definition MATRIX : string := "1 0 0 0 0 1 0 0 0 0 1 0 0 0 0 1".

(** The entry of object [i] in the settings of multi-object mode. *)
Definition settings_object (i : Z) (obj : MeshObject) (ext_num : Z) : string :=
  let num_tris := Z.of_nat (length (triangles obj)) in
  "  <object id=" +:+ q (str_int i) +:+ ">" +:+ nl
  +:+ "    " +:+ metadata "name" (name obj) +:+ nl
  +:+ "    " +:+ metadata "extruder" (str_int ext_num) +:+ nl
  +:+ "    <metadata face_count=" +:+ q (str_int num_tris) +:+ " />" +:+ nl
  +:+ "    <part id=" +:+ q (str_int i) +:+ " subtype=" +:+ q "normal_part"
  +:+ ">" +:+ nl
  +:+ "      " +:+ metadata "name" (name obj) +:+ nl
  +:+ "      " +:+ metadata "matrix" MATRIX +:+ nl
  +:+ "      " +:+ metadata "source_file" (name obj +:+ ".stl") +:+ nl
  +:+ "      " +:+ metadata "source_object_id" "0" +:+ nl
  +:+ "      " +:+ metadata "source_volume_id" "0" +:+ nl
  +:+ "      " +:+ metadata "source_offset_x" "0" +:+ nl
  +:+ "      " +:+ metadata "source_offset_y" "0" +:+ nl
  +:+ "      " +:+ metadata "source_offset_z" "0" +:+ nl
  +:+ "      " +:+ MESH_STAT +:+ nl
  +:+ "    </part>" +:+ nl
  +:+ "  </object>".

Definition model_instance (i : Z) : string :=
  "    <model_instance>" +:+ nl
  +:+ "      " +:+ metadata "object_id" (str_int i) +:+ nl
  +:+ "      " +:+ metadata "instance_id" "0" +:+ nl
  +:+ "    </model_instance>".

Definition assemble_item (i : Z) : string :=
  "    <assemble_item object_id=" +:+ q (str_int i)
  +:+ " instance_id=" +:+ q "0"
  +:+ " transform=" +:+ q IDENTITY +:+ " offset=" +:+ q "0 0 0" +:+ " />".

Definition PLATE_OPEN : string :=
  "  <plate>" +:+ nl
  +:+ "    " +:+ metadata "plater_id" "1" +:+ nl
  +:+ "    " +:+ metadata "plater_name" "" +:+ nl
  +:+ "    " +:+ metadata "locked" "false" +:+ nl
  +:+ "    " +:+ metadata "bed_type" "auto" +:+ nl
  +:+ "    " +:+ metadata "print_sequence" "by layer" +:+ nl.

(** The first loop of [_build_model_settings]. *)
Fixpoint settings_objects (extruder_map : gmap string Z)
    (objects : list (Z * MeshObject)) (obj_entries : list string)
  : result (list string) :=
  match objects with
  | [] => Ok obj_entries
  | (i, obj) :: rest =>
      ext_num ← getitem extruder_map (color obj);
      settings_objects extruder_map rest
        (obj_entries ++ [settings_object i obj ext_num])
  end.

Definition _build_model_settings (objects : list MeshObject)
    (extruder_map : gmap string Z) : result string :=
  obj_entries ← settings_objects extruder_map (enumerate1 objects) [];
  let n := Z.of_nat (length objects) in
  let model_instances := map model_instance (range1 n) in
  let assemble_items := map assemble_item (range1 n) in
  Ok (XML_DECL
      +:+ "<config>" +:+ nl
      +:+ join_lines obj_entries +:+ nl
      +:+ PLATE_OPEN
      +:+ join_lines model_instances +:+ nl
      +:+ "  </plate>" +:+ nl
      +:+ "  <assemble>" +:+ nl
      +:+ join_lines assemble_items +:+ nl
      +:+ "  </assemble>" +:+ nl
      +:+ "</config>").

Definition _build_model_settings_painted (merged_obj : MeshObject)
    (default_extruder : Z) : string :=
  let num_tris := Z.of_nat (length (triangles merged_obj)) in
  XML_DECL
  +:+ "<config>" +:+ nl
  +:+ "  <object id=" +:+ q "1" +:+ ">" +:+ nl
  +:+ "    " +:+ metadata "name" (name merged_obj) +:+ nl
  +:+ "    " +:+ metadata "extruder" (str_int default_extruder) +:+ nl
  +:+ "    <metadata face_count=" +:+ q (str_int num_tris) +:+ " />" +:+ nl
  +:+ "    <part id=" +:+ q "1" +:+ " subtype=" +:+ q "normal_part" +:+ ">" +:+ nl
  +:+ "      " +:+ metadata "name" (name merged_obj) +:+ nl
  +:+ "      " +:+ metadata "matrix" MATRIX +:+ nl
  +:+ "      " +:+ MESH_STAT +:+ nl
  +:+ "    </part>" +:+ nl
  +:+ "  </object>" +:+ nl
  +:+ PLATE_OPEN
  +:+ model_instance 1 +:+ nl
  +:+ "  </plate>" +:+ nl
  +:+ "  <assemble>" +:+ nl
  +:+ assemble_item 1 +:+ nl
  +:+ "  </assemble>" +:+ nl
  +:+ "</config>".

End Emitter.

Section Writer.
Context `{PyBuiltins}.
Variable str_float : pyfloat -> string.

(** An entry of the archive being written: its name and its content. *)
Definition entry : Type := string * string.

(** The tail of both branches of [write_bambu_3mf]: the entries for the
    thumbnails, a dictionary from file name to image bytes. *)
Definition thumbnail_entries (thumbnails : odict string) : list entry :=
  match thumbnails with
  | [] => []
  | _ =>
      match od_get thumbnails "plate_1.png" with
      | Some png => [("Metadata/plate_1.png", png)]
      | None => []
      end
      ++ map (fun '(filename, png_data) =>
                ("Auxiliaries/.thumbnails/" +:+ filename, png_data))
           thumbnails
  end.

(** The loop [for i, obj in enumerate(objects, 1)] of multi-object mode. *)
Fixpoint object_entries (objects : list (Z * MeshObject)) (unit : string)
    (written : list entry) : list entry * (emit_error + ()) :=
  match objects with
  | [] => (written, inr ())
  | (i, obj) :: rest =>
      match _build_object_model str_float obj unit None with
      | inl e => (written, inl e)
      | inr part =>
          object_entries rest unit
            (written ++ [("3D/Objects/object_" +:+ str_int i +:+ ".model", part)])
      end
  end.

(** [write_bambu_3mf], on the objects and the unit of the parsed model.
    The first component is the archive as it is when the function returns
    or raises: [None] when it was not created, else its entries in the
    order of writing. *)
Definition write_bambu_3mf (objects : list MeshObject) (unit : string)
    (extruder_map : gmap string Z) (thumbnails : odict string) (painted : bool)
  : option (list entry) * (emit_error + ()) :=
  let has_thumbnails := match thumbnails with [] => false | _ => true end in
  if painted then
    match merge_objects_painted objects extruder_map with
    | Raise e => (None, inl (Raised e))
    | Ok (merged, paint_colors, default_extruder) =>
        let written :=
          [("[Content_Types].xml", _build_content_types);
           ("_rels/.rels", _build_root_rels has_thumbnails);
           ("3D/3dmodel.model",
            _build_main_model_painted unit (transform merged));
           ("3D/_rels/3dmodel.model.rels", _build_model_rels 1)] in
        match _build_object_model str_float merged unit (Some paint_colors) with
        | inl e => (Some written, inl e)
        | inr part =>
            (Some (written
                   ++ [("3D/Objects/object_1.model", part);
                       ("Metadata/model_settings.config",
                        _build_model_settings_painted merged default_extruder)]
                   ++ thumbnail_entries thumbnails),
             inr ())
        end
    end
  else
    let written :=
      [("[Content_Types].xml", _build_content_types);
       ("_rels/.rels", _build_root_rels has_thumbnails);
       ("3D/3dmodel.model", _build_main_model objects unit);
       ("3D/_rels/3dmodel.model.rels",
        _build_model_rels (Z.of_nat (length objects)))] in
    match object_entries (enumerate1 objects) unit written with
    | (written, inl e) => (Some written, inl e)
    | (written, inr _) =>
        match _build_model_settings objects extruder_map with
        | Raise e => (Some written, inl (Raised e))
        | Ok settings =>
            (Some (written
                   ++ [("Metadata/model_settings.config", settings)]
                   ++ thumbnail_entries thumbnails),
             inr ())
        end
    end.

(** How [main] ends: [sys.exit(code)], an exception that nothing catches
    (with the output archive as it is then), or the written archive. *)
Inductive main_outcome : Type :=
| Exited (code : Z)
| Uncaught (e : emit_error) (archive : option (list entry))
| Written (archive : list entry).

(** The objects that the references stand for. *)
Definition deref_all (h : Heap) (refs : list nat) : option (list MeshObject) :=
  mapM (fun r => mesh_store h !! r) refs.

(** [main] from the opened input archive on.  The handling of the command
    line, the console output and the external renderer are left out: the
    rendered [thumbnails] are an argument, as is the choice of the mode. *)
Definition run_main (depth : nat) (zf : ZipFile) (thumbnails : odict string)
    (multi_object : bool) : main_outcome :=
  let painted := negb multi_object in
  match parse_input_3mf depth zf empty_heap with
  | (_, Raise e) => Uncaught (Raised e) None
  | (h, Ok parsed) =>
      match objects parsed with
      | [] => Exited 1
      | _ =>
          match deref_all h (objects parsed) with
          | None => Uncaught (Raised SystemError) None
          | Some objs =>
              let extruder_map := map_colors_to_extruders objs in
              match write_bambu_3mf objs (unit_ parsed) extruder_map
                      thumbnails painted with
              | (archive, inl e) => Uncaught e archive
              | (Some archive, inr _) => Written archive
              | (None, inr _) => Uncaught (Raised SystemError) None
              end
          end
      end
  end.

End Writer.

(** The names of the parts that both modes write first, and the name of
    the part of object [i]. *)
Definition CORE_NAMES : list string :=
  ["[Content_Types].xml"; "_rels/.rels"; "3D/3dmodel.model";
   "3D/_rels/3dmodel.model.rels"].

Definition object_part_name (i : Z) : string :=
  "3D/Objects/object_" +:+ str_int i +:+ ".model".

Definition SETTINGS_NAME : string := "Metadata/model_settings.config".

(** A container with a reference to object 1 and one to the unknown id 9,
    and a container that refers to itself (object 2). *)
Definition half_dangling : Element :=
  el "object" [("id", "2")]
    [el "components" []
       [el "component" [("objectid", "1")] [];
        el "component" [("objectid", "9")] []]].

Definition self_loop : Element :=
  el "object" [("id", "2")]
    [el "components" [] [el "component" [("objectid", "2")] []]].

(** A store with two mesh objects. *)
Definition two_meshes : @Heap plain_builtins :=
  {| mesh_store :=
       [ {| name := "a"; obj_id := 1; vertices := []; triangles := [];
            color := "#AA0000"; transform := "" |};
         {| name := "b"; obj_id := 2; vertices := []; triangles := [];
            color := "#0000BB"; transform := "" |} ];
     dict_store := [] |}.

(** With [plain_builtins] a float is kept as its text, which is also how
    it is printed. *)
Definition plain_str_float : @pyfloat plain_builtins -> string := fun x => x.

(** * Theorems *)

(** ** The encoder *)

Lemma format_X_digit (d : Z) :
  0 <= d < 15 -> format_X d = String (hex_char d) EmptyString.
Proof.
  intros Hd.
  assert (Hc : d = 0 \/ d = 1 \/ d = 2 \/ d = 3 \/ d = 4 \/ d = 5 \/ d = 6 \/
               d = 7 \/ d = 8 \/ d = 9 \/ d = 10 \/ d = 11 \/ d = 12 \/
               d = 13 \/ d = 14) by lia.
  repeat (destruct Hc as [-> | Hc]; [reflexivity |]).
  subst d. reflexivity.
Qed.

(** The loop leaves the remainder of the division by 15 and has appended
    one ["F"] per subtraction. *)
Lemma encode_ext_loop_spec (ext_value : Z) (nibbles : list string) :
  0 <= ext_value ->
  encode_ext_loop ext_value nibbles
  = (ext_value mod 15, nibbles ++ repeat "F" (Z.to_nat (ext_value / 15))).
Proof.
  funelim (encode_ext_loop ext_value nibbles); intros Hpos.
  - match goal with IH : _ -> encode_ext_loop _ _ = _ |- _ =>
      rewrite IH by lia end.
    replace ext_value with ((ext_value - 15) + 1 * 15) at 3 4 by lia.
    rewrite Z_mod_plus_full, Z_div_plus_full by lia.
    rewrite Z2Nat.inj_add by (try apply Z.div_pos; lia).
    rewrite Nat.add_comm. simpl repeat at 2.
    rewrite <- app_assoc. reflexivity.
  - rewrite Z.mod_small, Z.div_small by lia.
    simpl. rewrite app_nil_r. reflexivity.
Qed.

Lemma concat_chars (cs : list ascii) :
  String.concat "" (map (fun c => String c EmptyString) cs)
  = string_of_list_ascii cs.
Proof.
  induction cs as [| c [| c' cs] IH]; [reflexivity .. |].
  change (String c (String.concat "" (map (fun c => String c EmptyString) (c' :: cs)))
          = String c (string_of_list_ascii (c' :: cs))).
  now rewrite IH.
Qed.

Lemma hex_value_char (d : Z) : 0 <= d < 16 -> hex_value (hex_char d) = Some d.
Proof.
  intros Hd.
  assert (Hc : d = 0 \/ d = 1 \/ d = 2 \/ d = 3 \/ d = 4 \/ d = 5 \/ d = 6 \/
               d = 7 \/ d = 8 \/ d = 9 \/ d = 10 \/ d = 11 \/ d = 12 \/
               d = 13 \/ d = 14 \/ d = 15) by lia.
  repeat (destruct Hc as [-> | Hc]; [reflexivity |]).
  subst d. reflexivity.
Qed.

Lemma encode_extended (s : Z) :
  3 <= s ->
  encode_paint_color s = string_of_list_ascii (rev (extended_chars (s - 3))).
Proof.
  intros Hs. unfold encode_paint_color.
  destruct (Z.eqb_spec s 0) as [? | _]; [lia |].
  destruct (Z.leb_spec s 2) as [? | _]; [lia |].
  rewrite encode_ext_loop_spec by lia.
  rewrite format_X_digit by (apply Z.mod_pos_bound; lia).
  rewrite <- concat_chars, map_rev. f_equal. f_equal.
  unfold extended_chars.
  change ("C"%char :: ?l) with (["C"%char] ++ l).
  rewrite !map_app, <- app_assoc. f_equal. f_equal.
  generalize (Z.to_nat ((s - 3) / 15)) as k.
  induction k as [| k IH]; [reflexivity | simpl; now rewrite <- IH].
Qed.

Lemma decode_ext_chars (k : nat) (r : Z) :
  0 <= r < 15 ->
  decode_ext (repeat "F"%char k ++ [hex_char r]) = Some (15 * Z.of_nat k + r).
Proof.
  intros Hr. induction k as [| k IH].
  - simpl repeat. simpl app. unfold decode_ext.
    rewrite hex_value_char by lia.
    destruct (Z.eqb_spec r 15); [lia |]. f_equal; lia.
  - change (decode_ext ("F"%char :: (repeat "F"%char k ++ [hex_char r]))
            = Some (15 * Z.of_nat (S k) + r)).
    cbn [decode_ext]. change (hex_value "F") with (Some 15).
    change (15 =? 15) with true. cbv iota.
    rewrite IH. simpl option_map. f_equal. lia.
Qed.

Lemma decode_encode (s : Z) :
  0 <= s -> decode_paint_color (encode_paint_color s) = Some s.
Proof.
  intros Hs.
  destruct (Z_lt_le_dec s 3) as [Hlt | Hge].
  - assert (Hc : s = 0 \/ s = 1 \/ s = 2) by lia.
    destruct Hc as [-> | [-> | ->]]; reflexivity.
  - rewrite encode_extended by assumption.
    unfold decode_paint_color.
    rewrite list_ascii_of_string_of_list_ascii, rev_involutive.
    unfold extended_chars. change (hex_value "C") with (Some 12).
    change (negb (Z.land 12 3 =? 0)) with false. cbv iota.
    change (Z.land (Z.shiftr 12 2) 1 + 2 * Z.land (Z.shiftr 12 3) 1 =? 3)
      with true. cbv iota.
    rewrite decode_ext_chars by (apply Z.mod_pos_bound; lia).
    simpl option_map. f_equal.
    rewrite Z2Nat.id by (apply Z.div_pos; lia).
    pose proof (Z.div_mod (s - 3) 15). lia.
Qed.

(** C1: for every state [s >= 3] the encoder returns the reversal of the
    character sequence made of the marker [C], one [F] for each full 15 in
    [ext = s - 3], and one upper-case hex digit for what remains of [ext];
    state 3 gives ["0C"] and state 18 gives ["0FC"]. *)
Theorem encode_paint_color_extended :
  (forall s : Z, 3 <= s ->
     encode_paint_color s
     = string_of_list_ascii
         (rev ("C"%char :: repeat "F"%char (Z.to_nat ((s - 3) / 15))
               ++ [hex_char ((s - 3) mod 15)])))
  /\ encode_paint_color 3 = "0C"
  /\ encode_paint_color 18 = "0FC".
Proof.
  split; [| split; reflexivity].
  intros s Hs. exact (encode_extended s Hs).
Qed.

Lemma encode_paint_color_extended_witness :
  3 <= 33 /\ encode_paint_color 33 = "0FFC".
Proof.
  split; [lia |].
  exact (proj1 encode_paint_color_extended 33 ltac:(lia)).
Defined.

(** C2: state 0 encodes to the empty string; states 1 and 2 encode to the
    single upper-case hex digit of the nibble
    [(s & 1) * 4 + ((s >> 1) & 1) * 8], that is ["4"] and ["8"]. *)
Theorem encode_paint_color_leaf :
  encode_paint_color 0 = ""
  /\ (forall s : Z, s = 1 \/ s = 2 ->
        encode_paint_color s
        = String (hex_char (Z.land s 1 * 4 + Z.land (Z.shiftr s 1) 1 * 8))
            EmptyString)
  /\ encode_paint_color 1 = "4"
  /\ encode_paint_color 2 = "8".
Proof.
  repeat split; try reflexivity.
  intros s [-> | ->]; reflexivity.
Qed.

Lemma encode_paint_color_leaf_witness :
  (2 = 1 \/ 2 = 2) /\ encode_paint_color 2 = "8".
Proof.
  split; [right; reflexivity |].
  exact (proj1 (proj2 encode_paint_color_leaf) 2 (or_intror eq_refl)).
Defined.

(** C3: for every non-negative state [s], decoding the encoder's output
    under the documented rule (a single leaf nibble for [s] in 0..2; for
    [s >= 3] un-reverse, strip the marker [C], sum the [F] continuation
    nibbles and the last nibble, add 3) gives back [s]; hence the encoder
    is injective on the non-negative states, in particular on [s >= 1]. *)
Theorem encode_paint_color_roundtrip (s : Z) :
  0 <= s ->
  decode_paint_color (encode_paint_color s) = Some s
  /\ (forall t : Z, 0 <= t ->
        encode_paint_color t = encode_paint_color s -> t = s).
Proof.
  intros Hs. split; [now apply decode_encode |].
  intros t Ht Heq.
  pose proof (decode_encode t Ht) as Hdt.
  rewrite Heq, (decode_encode s Hs) in Hdt. congruence.
Qed.

Lemma encode_paint_color_roundtrip_witness :
  0 <= 33
  /\ decode_paint_color (encode_paint_color 33) = Some 33
  /\ (forall t : Z, 0 <= t ->
        encode_paint_color t = encode_paint_color 33 -> t = 33).
Proof.
  split; [lia |]. apply (encode_paint_color_roundtrip 33). lia.
Defined.

(** ** Ordered dictionaries and [max] *)

Lemma od_get_set {V} (d : odict V) (k k' : string) (v : V) :
  od_get (od_set d k v) k' = if decide (k = k') then Some v else od_get d k'.
Proof.
  induction d as [| [k0 v0] d IH]; simpl.
  - reflexivity.
  - destruct (decide (k0 = k)) as [-> | Hne]; simpl.
    + destruct (decide (k = k')); reflexivity.
    + rewrite IH. destruct (decide (k0 = k')) as [-> | ?]; [| reflexivity].
      destruct (decide (k = k')); congruence.
Qed.

Lemma od_get_keys {V} (d : odict V) (k : string) :
  is_Some (od_get d k) <-> k ∈ od_keys d.
Proof.
  induction d as [| [k0 v0] d IH]; simpl.
  - split; [intros [? [=]] | intros ?%elem_of_nil; contradiction].
  - rewrite elem_of_cons. destruct (decide (k0 = k)) as [-> | Hne].
    + split; eauto.
    + rewrite IH. split; [auto |].
      intros [Heq | ?]; [congruence | assumption].
Qed.

Lemma od_keys_set {V} (d : odict V) (k : string) (v : V) :
  od_keys (od_set d k v)
  = if decide (k ∈ od_keys d) then od_keys d else od_keys d ++ [k].
Proof.
  induction d as [| [k0 v0] d IH]; simpl.
  - destruct (decide (k ∈ [])) as [?%elem_of_nil | ?]; [contradiction | reflexivity].
  - destruct (decide (k0 = k)) as [-> | Hne]; simpl.
    + destruct (decide (k ∈ k :: od_keys d)) as [? | Hn]; [reflexivity |].
      exfalso. apply Hn. left.
    + rewrite IH.
      destruct (decide (k ∈ od_keys d)) as [Hin | Hnin];
        destruct (decide (k ∈ k0 :: od_keys d)) as [Hin' | Hnin'];
        try reflexivity.
      * exfalso. apply Hnin'. now right.
      * apply elem_of_cons in Hin' as [-> | ?]; contradiction.
Qed.

Lemma max_from_spec {A} (key : A -> option Z) (f : A -> Z) (rest : list A) :
  forall best : A,
  (forall x, x ∈ rest -> key x = Some (f x)) ->
  (max_from key best (Some (f best)) rest = Ok best
   /\ forall x, x ∈ rest -> f x <= f best)
  \/ (exists pre m post,
        rest = pre ++ m :: post
        /\ max_from key best (Some (f best)) rest = Ok m
        /\ f best < f m
        /\ (forall x, x ∈ pre -> f x < f m)
        /\ (forall x, x ∈ post -> f x <= f m)).
Proof.
  induction rest as [| x rest IH]; intros best Hkey.
  - left. split; [reflexivity | intros x ?%elem_of_nil; contradiction].
  - assert (Hx : key x = Some (f x)) by (apply Hkey; left).
    assert (Hrest : forall y, y ∈ rest -> key y = Some (f y))
      by (intros y Hy; apply Hkey; now right).
    cbn [max_from]. rewrite Hx.
    destruct (Z.ltb_spec (f best) (f x)) as [Hlt | Hge].
    + right. destruct (IH x Hrest) as [[Hr Hle] | (pre & m & post & -> & Hr & Hlt' & Hpre & Hpost)].
      * exists [], x, rest. repeat split; try assumption.
        all: intros y ?%elem_of_nil; contradiction.
      * exists (x :: pre), m, post. repeat split; try assumption; try lia.
        intros y [-> | Hy]%elem_of_cons; [lia | now apply Hpre].
    + destruct (IH best Hrest) as [[Hr Hle] | (pre & m & post & -> & Hr & Hlt' & Hpre & Hpost)].
      * left. split; [assumption |].
        intros y [-> | Hy]%elem_of_cons; [lia | now apply Hle].
      * right. exists (x :: pre), m, post. repeat split; try assumption.
        intros y [-> | Hy]%elem_of_cons; [lia | now apply Hpre].
Qed.

(** [max] returns the first item whose key is the largest. *)
Lemma py_max_spec {A} (key : A -> option Z) (f : A -> Z) (items : list A) :
  items <> [] ->
  (forall x, x ∈ items -> key x = Some (f x)) ->
  exists pre m post,
    items = pre ++ m :: post
    /\ py_max key items = Ok m
    /\ (forall x, x ∈ pre -> f x < f m)
    /\ (forall x, x ∈ post -> f x <= f m).
Proof.
  destruct items as [| x rest]; [congruence |]. intros _ Hkey.
  assert (Hx : key x = Some (f x)) by (apply Hkey; left).
  unfold py_max. rewrite Hx.
  destruct (max_from_spec key f rest x) as [[Hr Hle] | (pre & m & post & -> & Hr & Hlt & Hpre & Hpost)].
  - intros y Hy. apply Hkey. now right.
  - exists [], x, rest. repeat split; try assumption.
    intros y ?%elem_of_nil; contradiction.
  - exists (x :: pre), m, post. repeat split; try assumption.
    intros y [-> | Hy]%elem_of_cons; [lia | now apply Hpre].
Qed.

Lemma elem_of_map {A B} (f : A -> B) (l : list A) (y : B) :
  y ∈ map f l <-> exists x, f x = y /\ x ∈ l.
Proof.
  rewrite list_elem_of_In, in_map_iff.
  split; intros (x & Hx & Hin); exists x; split; auto;
    now apply list_elem_of_In.
Qed.

Lemma seen_order_prefix (cs ks : list string) :
  exists ext, seen_order ks cs = ks ++ ext.
Proof.
  revert ks. induction cs as [| c cs IH]; intros ks.
  - exists []. now rewrite app_nil_r.
  - unfold seen_order. cbn [fold_left]. fold (seen_order).
    destruct (decide (c ∈ ks)).
    + apply IH.
    + destruct (IH (ks ++ [c])) as [ext Hext].
      exists (c :: ext).
      unfold seen_order in Hext |- *. rewrite Hext, <- app_assoc. reflexivity.
Qed.

Lemma elem_of_seen_order (cs ks : list string) (c : string) :
  c ∈ seen_order ks cs <-> c ∈ ks \/ c ∈ cs.
Proof.
  revert ks. induction cs as [| c' cs IH]; intros ks.
  - simpl. rewrite elem_of_nil. tauto.
  - unfold seen_order. cbn [fold_left].
    match goal with |- context [fold_left ?g cs ?k] =>
      change (fold_left g cs k) with (seen_order k cs) end.
    rewrite IH, elem_of_cons.
    destruct (decide (c' ∈ ks)) as [Hin | Hnin].
    + split; [tauto |]. intros [? | [-> | ?]]; tauto.
    + rewrite elem_of_app, elem_of_cons, elem_of_nil. tauto.
Qed.

(** The keys created before the first occurrence of [m] are exactly the
    keys that precede [m] in the final order. *)
Lemma seen_order_first (pre post : list string) (m : string) :
  m ∉ pre ->
  exists rest, seen_order [] (pre ++ m :: post) = seen_order [] pre ++ m :: rest.
Proof.
  intros Hm. unfold seen_order at 1. rewrite fold_left_app. cbn [fold_left].
  fold (seen_order [] pre).
  destruct (decide (m ∈ seen_order [] pre)) as [Hin | _].
  - apply elem_of_seen_order in Hin as [?%elem_of_nil | ?]; contradiction.
  - destruct (seen_order_prefix post (seen_order [] pre ++ [m])) as [ext Hext].
    exists ext. unfold seen_order at 1 in Hext. rewrite Hext, <- app_assoc.
    reflexivity.
Qed.

Section MergeFacts.
Context `{PyBuiltins}.

Lemma tally_keys (objects : list MeshObject) (d : odict Z) :
  od_keys (tally_triangles d objects)
  = seen_order (od_keys d) (map color objects).
Proof.
  revert d. induction objects as [| obj objects IH]; intros d; [reflexivity |].
  unfold tally_triangles. cbn [fold_left map].
  match goal with |- context [fold_left ?g objects ?k] =>
    change (fold_left g objects k) with (tally_triangles k objects) end.
  rewrite IH, od_keys_set. reflexivity.
Qed.

Lemma tally_total (objects : list MeshObject) (d : odict Z) (c : string) :
  c ∈ od_keys (tally_triangles d objects) ->
  od_get (tally_triangles d objects) c
  = Some (default 0 (od_get d c) + tri_total c objects).
Proof.
  revert d. induction objects as [| obj objects IH]; intros d.
  - intros [v Hv]%od_get_keys. simpl in *. rewrite Hv. simpl. f_equal. lia.
  - unfold tally_triangles. cbn [fold_left].
    match goal with |- context [fold_left ?g objects ?k] =>
      change (fold_left g objects k) with (tally_triangles k objects) end.
    intros Hin. rewrite (IH _ Hin), od_get_set. f_equal. cbn [tri_total fold_right].
    fold (tri_total c objects).
    destruct (decide (color obj = c)) as [-> | Hne]; simpl; lia.
Qed.

(** The default color is the color of the first object, in object order,
    whose color has the largest total. *)
Lemma default_color_spec (objects : list MeshObject) :
  objects <> [] ->
  let color_tri_count := tally_triangles [] objects in
  exists pre obj post,
    objects = pre ++ obj :: post
    /\ py_max (od_get color_tri_count) (od_keys color_tri_count) = Ok (color obj)
    /\ (forall o, o ∈ pre ->
          tri_total (color o) objects < tri_total (color obj) objects)
    /\ (forall o, o ∈ objects ->
          tri_total (color o) objects <= tri_total (color obj) objects).
Proof.
  intros Hne ctc.
  assert (Hks : od_keys ctc = seen_order [] (map color objects))
    by apply tally_keys.
  assert (Hmem : forall c, c ∈ od_keys ctc <-> c ∈ map color objects).
  { intros c. rewrite Hks, elem_of_seen_order, elem_of_nil. tauto. }
  destruct (py_max_spec (od_get ctc) (fun c => tri_total c objects) (od_keys ctc))
    as (pre_k & m & post_k & Hsplit & Hmax & Hpre & Hpost).
  { destruct objects as [| o objects]; [congruence |].
    intros Hnil. pose proof (proj2 (Hmem (color o))) as Hin.
    rewrite Hnil in Hin. eapply elem_of_nil, Hin. left. }
  { intros c Hc. unfold ctc. rewrite tally_total by exact Hc. reflexivity. }
  assert (Hm : m ∈ map color objects).
  { apply Hmem. rewrite Hsplit, elem_of_app, elem_of_cons. auto. }
  apply list_elem_of_split_l in Hm as (pre_c & post_c & Hcs & Hfirst).
  destruct (seen_order_first pre_c post_c m Hfirst) as [rest Hrest].
  rewrite <- Hcs, <- Hks, Hsplit in Hrest.
  assert (Hmk : m ∉ pre_k).
  { intros Hin. specialize (Hpre m Hin). lia. }
  assert (Hmp : m ∉ seen_order [] pre_c).
  { rewrite elem_of_seen_order, elem_of_nil. tauto. }
  destruct (not_elem_of_app_cons_inv_l _ _ _ _ _ _ Hmp Hmk Hrest) as (Hpk & _ & _).
  apply map_eq_app in Hcs as (pre & tl & -> & Hmap_pre & Htl).
  apply map_eq_cons in Htl as (obj & post & -> & Hcol & _).
  exists pre, obj, post. rewrite Hcol.
  split; [reflexivity |]. split; [exact Hmax |]. split.
  - intros o Ho. apply Hpre. rewrite Hpk, elem_of_seen_order. right.
    rewrite <- Hmap_pre. apply elem_of_map. eauto.
  - intros o Ho.
    assert (Hin : color o ∈ od_keys ctc) by (apply Hmem, elem_of_map; eauto).
    rewrite Hsplit, elem_of_app, elem_of_cons in Hin.
    destruct Hin as [Hin | [-> | Hin]]; [specialize (Hpre _ Hin) | | specialize (Hpost _ Hin)]; lia.
Qed.

Lemma append_triangles_spec (offset : Z) (pc : string) (tris : list Triangle) :
  forall (all_triangles : list Triangle) (paint_colors : list string),
  append_triangles offset pc tris (all_triangles, paint_colors)
  = (all_triangles ++ map (shift_triangle offset) tris,
     paint_colors ++ repeat pc (length tris)).
Proof.
  induction tris as [| [[v1 v2] v3] tris IH]; intros ats pcs.
  - simpl. now rewrite !app_nil_r.
  - unfold append_triangles. cbn [fold_left].
    match goal with |- fold_left _ tris (?a, ?b) = ?r =>
      change (append_triangles offset pc tris (a, b) = r) end.
    rewrite IH. cbn [map length repeat shift_triangle].
    now rewrite <- !app_assoc.
Qed.

Lemma paint_tag_eqb (default_extruder slot : Z) :
  (if slot =? default_extruder then "" else encode_paint_color slot)
  = paint_tag default_extruder slot.
Proof.
  unfold paint_tag.
  destruct (Z.eqb_spec slot default_extruder), (decide (slot = default_extruder));
    congruence.
Qed.

Lemma merge_loop_spec (extruder_map : gmap string Z) (default_extruder : Z)
    (objects : list MeshObject) :
  covers extruder_map objects ->
  forall all_vertices all_triangles paint_colors,
  merge_loop extruder_map default_extruder objects
    all_vertices all_triangles paint_colors
  = Ok (all_vertices ++ concat (map vertices objects),
        all_triangles
        ++ shifted_triangles (Z.of_nat (length all_vertices)) objects,
        paint_colors ++ paint_tags extruder_map default_extruder objects).
Proof.
  induction objects as [| obj objects IH]; intros Hcov vs ts pcs.
  - simpl. unfold paint_tags. simpl. now rewrite !app_nil_r.
  - destruct (Hcov obj) as [slot Hslot]; [left |].
    cbn [merge_loop]. unfold getitem at 1. rewrite Hslot.
    cbn [mbind result_bind]. rewrite paint_tag_eqb, append_triangles_spec.
    rewrite IH by (intros o Ho; apply Hcov; now right).
    rewrite length_app, Nat2Z.inj_add.
    unfold paint_tags. cbn [map concat shifted_triangles]. rewrite Hslot.
    cbn [default]. now rewrite <- !app_assoc.
Qed.

Lemma length_concat_vertices (objects : list MeshObject) :
  length (concat (map vertices objects))
  = sum_list_with (fun obj => length (vertices obj)) objects.
Proof.
  induction objects as [| obj objects IH]; [reflexivity |].
  cbn [map concat sum_list_with]. now rewrite length_app, IH.
Qed.

Lemma length_shifted_triangles (objects : list MeshObject) (offset : Z) :
  length (shifted_triangles offset objects)
  = sum_list_with (fun obj => length (triangles obj)) objects.
Proof.
  revert offset. induction objects as [| obj objects IH]; intros offset.
  - reflexivity.
  - cbn [shifted_triangles sum_list_with].
    now rewrite length_app, length_map, IH.
Qed.

Lemma length_paint_tags (extruder_map : gmap string Z) (default_extruder : Z)
    (objects : list MeshObject) :
  length (paint_tags extruder_map default_extruder objects)
  = sum_list_with (fun obj => length (triangles obj)) objects.
Proof.
  unfold paint_tags. induction objects as [| obj objects IH]; [reflexivity |].
  cbn [map concat sum_list_with]. now rewrite length_app, repeat_length, IH.
Qed.

Lemma shifted_triangles_below (objects : list MeshObject) (offset : Z) :
  Forall mesh_wf objects ->
  Forall
    (triangle_below
       (offset
        + Z.of_nat (sum_list_with (fun obj => length (vertices obj)) objects)))
    (shifted_triangles offset objects).
Proof.
  revert offset. induction objects as [| obj objects IH]; intros offset Hwf.
  - constructor.
  - apply Forall_cons in Hwf as [Hobj Hwf].
    cbn [shifted_triangles sum_list_with]. apply Forall_app. split.
    + apply Forall_map. unfold mesh_wf in Hobj.
      eapply Forall_impl; [exact Hobj |].
      intros [[v1 v2] v3]. unfold triangle_below, shift_triangle. lia.
    + specialize (IH (offset + Z.of_nat (length (vertices obj))) Hwf).
      eapply Forall_impl; [exact IH |].
      intros [[v1 v2] v3]. unfold triangle_below. lia.
Qed.

Lemma encode_paint_color_nonempty (slot : Z) :
  1 <= slot -> encode_paint_color slot <> "".
Proof.
  intros Hs Hempty.
  pose proof (decode_encode slot ltac:(lia)) as Hd.
  rewrite Hempty in Hd. cbv in Hd. injection Hd as Hd. lia.
Qed.

(** The map that the converter itself builds has a slot, numbered from 1,
    for the color of every object. *)
Lemma map_colors_to_extruders_fold (objects : list MeshObject) :
  forall seen : gmap string Z,
  one_based seen ->
  let r :=
    fold_left
      (fun seen obj =>
         match seen !! color obj with
         | Some _ => seen
         | None => <[color obj := Z.of_nat (size seen) + 1]> seen
         end)
      objects seen in
  one_based r
  /\ (forall c, is_Some (seen !! c) -> is_Some (r !! c))
  /\ covers r objects.
Proof.
  induction objects as [| obj objects IH]; intros seen Hone.
  - simpl. repeat split; auto. intros o ?%elem_of_nil. contradiction.
  - cbn [fold_left].
    set (seen' := match seen !! color obj with
                  | Some _ => seen
                  | None => <[color obj := Z.of_nat (size seen) + 1]> seen
                  end).
    assert (Hone' : one_based seen').
    { unfold seen'. destruct (seen !! color obj) eqn:E; [exact Hone |].
      intros c slot. rewrite lookup_insert. case_decide.
      - intros [= <-]. lia.
      - apply Hone. }
    assert (Hmono : forall c, is_Some (seen !! c) -> is_Some (seen' !! c)).
    { unfold seen'. destruct (seen !! color obj) eqn:E; [auto |].
      intros c Hc. rewrite lookup_insert. case_decide; eauto. }
    assert (Hobj : is_Some (seen' !! color obj)).
    { unfold seen'. destruct (seen !! color obj) eqn:E; [rewrite E; eauto |].
      rewrite lookup_insert_eq. eauto. }
    destruct (IH seen' Hone') as (Hr1 & Hr2 & Hr3).
    split; [exact Hr1 |]. split; [auto |].
    intros o [-> | Ho]%elem_of_cons; [auto | now apply Hr3].
Qed.

Lemma map_colors_to_extruders_covers (objects : list MeshObject) :
  covers (map_colors_to_extruders objects) objects
  /\ one_based (map_colors_to_extruders objects).
Proof.
  destruct (map_colors_to_extruders_fold objects ∅) as (H1 & _ & H3).
  - intros c slot. rewrite lookup_empty. discriminate.
  - split; assumption.
Qed.

(** C4: for a non-empty sequence of objects whose triangle indices are all
    below their own vertex count (and an extruder map with a slot for each
    of their colors, as [map_colors_to_extruders] builds it), the merger
    returns a mesh whose vertex count is the sum of the vertex counts, whose
    triangle count is the sum of the triangle counts, whose triangle indices
    are all below the merged vertex count, and a paint-state list with one
    entry per merged triangle. *)
Theorem merge_objects_painted_counts (objects : list MeshObject)
    (extruder_map : gmap string Z) :
  objects <> [] ->
  Forall mesh_wf objects ->
  covers extruder_map objects ->
  exists merged paint_colors default_extruder,
    merge_objects_painted objects extruder_map
    = Ok (merged, paint_colors, default_extruder)
    /\ length (vertices merged)
       = sum_list_with (fun obj => length (vertices obj)) objects
    /\ length (triangles merged)
       = sum_list_with (fun obj => length (triangles obj)) objects
    /\ Forall (triangle_below (Z.of_nat (length (vertices merged))))
         (triangles merged)
    /\ length paint_colors = length (triangles merged).
Proof.
  intros Hne Hwf Hcov.
  destruct (default_color_spec objects Hne)
    as (pre & obj & post & Hsplit & Hmax & _ & _).
  destruct (Hcov obj) as [d Hd].
  { rewrite Hsplit, elem_of_app, elem_of_cons. auto. }
  unfold merge_objects_painted. rewrite Hmax. cbn [mbind result_bind].
  unfold getitem at 1. rewrite Hd. cbn [mbind result_bind].
  rewrite (merge_loop_spec _ _ _ Hcov). cbn [mbind result_bind app length].
  eexists _, _, _. split; [reflexivity |]. cbn [vertices triangles].
  rewrite length_concat_vertices, length_shifted_triangles, length_paint_tags.
  repeat split; try reflexivity.
  apply (shifted_triangles_below objects 0 Hwf).
Qed.

(** C5: for a non-empty sequence of objects and an extruder map that has a
    (1-based) slot for each of their colors, the default color is the color
    with the largest total triangle count, the first such color in object
    order on a tie; the merged mesh has that color and the returned default
    slot is its slot; the paint-state list goes block by block with the
    merged triangles, and the block of an object holds the non-empty string
    [encode_paint_color slot] exactly when the slot of its color differs
    from the default slot, and the empty string otherwise. *)
Theorem merge_objects_painted_default (objects : list MeshObject)
    (extruder_map : gmap string Z) :
  objects <> [] ->
  covers extruder_map objects ->
  one_based extruder_map ->
  exists merged paint_colors default_extruder pre obj post,
    merge_objects_painted objects extruder_map
    = Ok (merged, paint_colors, default_extruder)
    /\ objects = pre ++ obj :: post
    /\ color merged = color obj
    /\ extruder_map !! color obj = Some default_extruder
    /\ (forall o, o ∈ pre ->
          tri_total (color o) objects < tri_total (color obj) objects)
    /\ (forall o, o ∈ objects ->
          tri_total (color o) objects <= tri_total (color obj) objects)
    /\ triangles merged = shifted_triangles 0 objects
    /\ paint_colors
       = concat
           (map (fun o =>
                   repeat (paint_tag default_extruder
                             (default 0 (extruder_map !! color o)))
                     (length (triangles o)))
              objects)
    /\ (forall o slot, o ∈ objects -> extruder_map !! color o = Some slot ->
          (slot <> default_extruder ->
             paint_tag default_extruder slot = encode_paint_color slot
             /\ encode_paint_color slot <> "")
          /\ (slot = default_extruder -> paint_tag default_extruder slot = "")).
Proof.
  intros Hne Hcov Hone.
  destruct (default_color_spec objects Hne)
    as (pre & obj & post & Hsplit & Hmax & Hpre & Hall).
  destruct (Hcov obj) as [d Hd].
  { rewrite Hsplit, elem_of_app, elem_of_cons. auto. }
  unfold merge_objects_painted. rewrite Hmax. cbn [mbind result_bind].
  unfold getitem at 1. rewrite Hd. cbn [mbind result_bind].
  rewrite (merge_loop_spec _ _ _ Hcov). cbn [mbind result_bind app length].
  exists
    {| name := "merged"; obj_id := 1;
       vertices := concat (map vertices objects);
       triangles := shifted_triangles 0 objects;
       color := color obj;
       transform := match objects with o :: _ => transform o | [] => "" end |},
    (paint_tags extruder_map d objects), d, pre, obj, post.
  split_and!; try assumption; try reflexivity.
  intros o slot Ho Hslot. split.
  - intros Hslot'. split.
    + unfold paint_tag. destruct (decide (slot = d)); congruence.
    + apply encode_paint_color_nonempty. eapply Hone; eassumption.
  - intros ->. unfold paint_tag. destruct (decide (d = d)); congruence.
Qed.

(** C9 (the code at the empty sequence): [max] over the empty tally raises
    [ValueError] before any mesh is built, whatever the extruder map. *)
Theorem merge_objects_painted_empty (extruder_map : gmap string Z) :
  merge_objects_painted [] extruder_map = Raise ValueError.
Proof. reflexivity. Qed.

End MergeFacts.

Lemma merge_objects_painted_counts_witness :
  painted_objects <> []
  /\ Forall mesh_wf painted_objects
  /\ covers (map_colors_to_extruders painted_objects) painted_objects
  /\ exists merged paint_colors default_extruder,
       merge_objects_painted painted_objects
         (map_colors_to_extruders painted_objects)
       = Ok (merged, paint_colors, default_extruder)
       /\ length (vertices merged) = 7%nat
       /\ length (triangles merged) = 7%nat
       /\ Forall (triangle_below (Z.of_nat (length (vertices merged))))
            (triangles merged)
       /\ length paint_colors = length (triangles merged).
Proof.
  assert (H1 : painted_objects <> []) by discriminate.
  assert (H2 : Forall mesh_wf painted_objects).
  { unfold painted_objects, mesh_wf. cbn [vertices triangles length].
    repeat (apply List.Forall_cons; [cbv; repeat split |]); apply List.Forall_nil. }
  assert (H3 : covers (map_colors_to_extruders painted_objects) painted_objects)
    by apply (map_colors_to_extruders_covers painted_objects).
  exact (conj H1 (conj H2 (conj H3
           (merge_objects_painted_counts painted_objects _ H1 H2 H3)))).
Defined.

Lemma merge_objects_painted_default_witness :
  painted_objects <> []
  /\ covers (map_colors_to_extruders painted_objects) painted_objects
  /\ one_based (map_colors_to_extruders painted_objects)
  /\ exists merged paint_colors default_extruder pre obj post,
       merge_objects_painted painted_objects
         (map_colors_to_extruders painted_objects)
       = Ok (merged, paint_colors, default_extruder)
       /\ painted_objects = pre ++ obj :: post
       /\ color merged = color obj
       /\ map_colors_to_extruders painted_objects !! color obj
          = Some default_extruder
       /\ (forall o, o ∈ pre ->
             tri_total (color o) painted_objects
             < tri_total (color obj) painted_objects)
       /\ (forall o, o ∈ painted_objects ->
             tri_total (color o) painted_objects
             <= tri_total (color obj) painted_objects)
       /\ triangles merged = shifted_triangles 0 painted_objects
       /\ paint_colors
          = concat
              (map (fun o =>
                      repeat (paint_tag default_extruder
                                (default 0
                                   (map_colors_to_extruders painted_objects
                                      !! color o)))
                        (length (triangles o)))
                 painted_objects)
       /\ (forall o slot, o ∈ painted_objects ->
             map_colors_to_extruders painted_objects !! color o = Some slot ->
             (slot <> default_extruder ->
                paint_tag default_extruder slot = encode_paint_color slot
                /\ encode_paint_color slot <> "")
             /\ (slot = default_extruder ->
                   paint_tag default_extruder slot = "")).
Proof.
  assert (H1 : painted_objects <> []) by discriminate.
  assert (H2 : covers (map_colors_to_extruders painted_objects) painted_objects)
    by apply (map_colors_to_extruders_covers painted_objects).
  assert (H3 : one_based (map_colors_to_extruders painted_objects))
    by apply (map_colors_to_extruders_covers painted_objects).
  exact (conj H1 (conj H2 (conj H3
           (merge_objects_painted_default painted_objects _ H1 H2 H3)))).
Defined.

(** The spec's example: color A on 2 triangles and color B on 5 make B the
    default, and only the triangles of A carry a paint-state string. *)
Example merge_objects_painted_example :
  merge_objects_painted painted_objects (map_colors_to_extruders painted_objects)
  = Ok ({| name := "merged"; obj_id := 1;
           vertices := [pt "0" "0" "0"; pt "1" "0" "0"; pt "0" "1" "0";
                        pt "0" "0" "0"; pt "1" "0" "0"; pt "0" "1" "0";
                        pt "0" "0" "1"];
           triangles := [(0, 1, 2); (0, 2, 1);
                         (3, 4, 5); (3, 5, 6); (3, 6, 4); (4, 5, 6); (4, 6, 5)];
           color := "#0000BB";
           transform := "1 0 0 0 1 0 0 0 1 0 0 0" |},
        ["4"; "4"; ""; ""; ""; ""; ""], 2).
Proof. vm_compute. reflexivity. Qed.

(** ** The store: what a computation may change *)

Create HintDb frame discriminated.

Section StoreFacts.
Context `{PyBuiltins}.

Lemma py_bind_run {A B} (m : Py A) (k : A -> Py B) (h : Heap) :
  (m ≫= k) h
  = match m h with
    | (h', Ok a) => k a h'
    | (h', Raise e) => (h', Raise e)
    end.
Proof. reflexivity. Qed.

Lemma dict_frame_trans (h1 h2 h3 : Heap) :
  dict_frame h1 h2 -> dict_frame h2 h3 -> dict_frame h1 h3.
Proof. unfold dict_frame. eauto. Qed.

Lemma read_only_ret {A} (a : A) : read_only (mret a : Py A).
Proof. intros h. reflexivity. Qed.

Lemma read_only_lift {A} (r : result A) : read_only (lift r).
Proof. intros h. reflexivity. Qed.

Lemma read_only_bind {A B} (m : Py A) (k : A -> Py B) :
  read_only m -> (forall a, read_only (k a)) -> read_only (m ≫= k).
Proof.
  intros Hm Hk h. rewrite py_bind_run. specialize (Hm h).
  destruct (m h) as [h' [a | e]]; simpl in Hm; subst h'; [apply Hk | reflexivity].
Qed.

Lemma read_only_read_dict (r : nat) : read_only (read_dict r).
Proof. intros h. unfold read_dict. now destruct (dict_store h !! r). Qed.

Lemma read_only_dict_get (r : nat) (k : Z * Z) : read_only (dict_get r k).
Proof.
  apply read_only_bind; [apply read_only_read_dict | intros; apply read_only_ret].
Qed.

Lemma read_only_preserves {A} (m : Py A) : read_only m -> preserves_dicts m.
Proof. intros Hm h r d. now rewrite Hm. Qed.

Lemma preserves_ret {A} (a : A) : preserves_dicts (mret a : Py A).
Proof. apply read_only_preserves, read_only_ret. Qed.

Lemma preserves_lift {A} (r : result A) : preserves_dicts (lift r).
Proof. apply read_only_preserves, read_only_lift. Qed.

Lemma preserves_bind {A B} (m : Py A) (k : A -> Py B) :
  preserves_dicts m -> (forall a, preserves_dicts (k a)) ->
  preserves_dicts (m ≫= k).
Proof.
  intros Hm Hk h. rewrite py_bind_run. specialize (Hm h).
  destruct (m h) as [h' [a | e]]; simpl in *; [| exact Hm].
  eapply dict_frame_trans; [exact Hm | apply Hk].
Qed.

Lemma preserves_new_mesh (m : MeshObject) : preserves_dicts (new_mesh m).
Proof. intros h r d. auto. Qed.

Lemma preserves_set_transform (r : nat) (t : string) :
  preserves_dicts (set_transform r t).
Proof.
  intros h l d. unfold set_transform. now destruct (mesh_store h !! r).
Qed.

Lemma preserves_new_dict (d : gmap (Z * Z) string) : preserves_dicts (new_dict d).
Proof.
  intros h r d' Hr. simpl. apply lookup_app_l_Some. exact Hr.
Qed.

Lemma only_sets_ret {A} (r : nat) (a : A) : only_sets r (mret a : Py A).
Proof. intros h. split; reflexivity. Qed.

Lemma only_sets_lift {A} (r : nat) (x : result A) : only_sets r (lift x).
Proof. intros h. split; reflexivity. Qed.

Lemma only_sets_bind {A B} (r : nat) (m : Py A) (k : A -> Py B) :
  only_sets r m -> (forall a, only_sets r (k a)) -> only_sets r (m ≫= k).
Proof.
  intros Hm Hk h. rewrite py_bind_run. destruct (Hm h) as [Hm1 Hm2].
  destruct (m h) as [h' [a | e]]; simpl in *; [| split; assumption].
  destruct (Hk a h') as [Hk1 Hk2]. split; [congruence |].
  intros l Hl. rewrite Hk2, Hm2 by assumption. reflexivity.
Qed.

Lemma only_sets_setitem (r : nat) (k : Z * Z) (v : string) :
  only_sets r (dict_setitem r k v).
Proof.
  intros h. unfold dict_setitem.
  destruct (dict_store h !! r); [| split; reflexivity].
  split; [reflexivity |]. intros l Hl.
  simpl. apply list_lookup_insert_ne. congruence.
Qed.

End StoreFacts.

#[global] Hint Resolve read_only_ret read_only_lift read_only_read_dict
  read_only_dict_get preserves_ret preserves_lift preserves_new_mesh
  preserves_set_transform preserves_new_dict only_sets_ret only_sets_lift
  only_sets_setitem : frame.

(** One step on a goal about the effect of a computation: split a bind,
    decide a branch, or close it with a primitive's lemma. *)
Ltac frame_step :=
  first
    [ solve [auto with frame]
    | apply read_only_bind; [| intros ?]
    | apply preserves_bind; [| intros ?]
    | apply only_sets_bind; [| intros ?]
    | match goal with
      | |- read_only (match ?x with _ => _ end) => destruct x
      | |- preserves_dicts (match ?x with _ => _ end) => destruct x
      | |- only_sets _ (match ?x with _ => _ end) => destruct x
      end ].

Ltac frame := repeat frame_step.

(** ** The parser and the resolver *)

Section ResolverFacts.
Context `{PyBuiltins}.

Lemma only_sets_bases (color_map : nat) (res_id : Z) (bases : list (Z * Element)) :
  only_sets color_map (color_map_bases color_map res_id bases).
Proof.
  induction bases as [| [i base] bases IH]; cbn [color_map_bases]; frame.
Qed.
#[local] Hint Resolve only_sets_bases : frame.

Lemma only_sets_groups (color_map : nat) (groups : list Element) :
  only_sets color_map (color_map_groups color_map groups).
Proof.
  induction groups as [| bm groups IH]; cbn [color_map_groups]; frame.
Qed.
#[local] Hint Resolve only_sets_groups : frame.

(** The color map builder returns a new dictionary and leaves the rest of
    the store alone. *)
Lemma extract_color_map_run (root : Element) (h : Heap) :
  let h' := (_extract_color_map root h).1 in
  mesh_store h' = mesh_store h
  /\ dict_frame h h'
  /\ forall r, (_extract_color_map root h).2 = Ok r -> r = length (dict_store h).
Proof.
  unfold _extract_color_map. rewrite py_bind_run. cbn [new_dict].
  set (r := length (dict_store h)).
  set (h1 := {| mesh_store := mesh_store h; dict_store := dict_store h ++ [∅] |}).
  assert (Hrest : only_sets r
            (color_map_groups r (iter (qname NS_3MF "basematerials") root)
             ≫= fun _ => mret r)).
  { frame. }
  destruct (Hrest h1) as [Hm Hd]. cbv zeta. split; [exact Hm |]. split.
  - intros l d Hl. rewrite Hd.
    + simpl. apply lookup_app_l_Some. exact Hl.
    + apply lookup_lt_Some in Hl. unfold r. lia.
  - intros r'. rewrite py_bind_run.
    destruct (color_map_groups r _ h1) as [h2 [[] | e]]; simpl; congruence.
Qed.

Lemma preserves_extract_color_map (root : Element) :
  preserves_dicts (_extract_color_map root).
Proof. intros h. apply extract_color_map_run. Qed.
#[local] Hint Resolve preserves_extract_color_map : frame.

Lemma read_only_object_color (obj_elem : Element) (color_map : nat) :
  read_only (object_color obj_elem color_map).
Proof. unfold object_color. frame. Qed.
#[local] Hint Resolve read_only_object_color : frame.

Lemma read_only_mesh_triangles (color_map : nat) (ts : list Element) :
  forall triangles color_votes,
  read_only (mesh_triangles color_map ts triangles color_votes).
Proof.
  induction ts as [| t ts IH]; intros triangles color_votes;
    cbn [mesh_triangles]; frame.
Qed.
#[local] Hint Resolve read_only_mesh_triangles : frame.

Lemma read_only_parse_mesh (mesh_elem : Element) (color_map : nat) :
  read_only (_parse_mesh mesh_elem color_map).
Proof. unfold _parse_mesh. frame. Qed.
#[local] Hint Resolve read_only_parse_mesh : frame.

Lemma read_only_mesh_object_of (obj_elem mesh_elem : Element) (obj_id : Z)
    (obj_color : option string) (color_map : nat) :
  read_only (mesh_object_of obj_elem mesh_elem obj_id obj_color color_map).
Proof. unfold mesh_object_of. frame. Qed.
#[local] Hint Resolve read_only_mesh_object_of : frame.

Lemma preserves_sub_model_objects (objs : list Element) (ref_id : Z) (merged : nat) :
  preserves_dicts (sub_model_objects objs ref_id merged).
Proof.
  induction objs as [| obj_elem objs IH]; cbn [sub_model_objects]; frame;
    apply read_only_preserves; auto with frame.
Qed.
#[local] Hint Resolve preserves_sub_model_objects : frame.

Lemma preserves_parse_sub_model (zf : ZipFile) (sub_path : string) (ref_id : Z)
    (color_map : nat) :
  preserves_dicts (_parse_sub_model zf sub_path ref_id color_map).
Proof.
  unfold _parse_sub_model. frame; apply read_only_preserves; auto with frame.
Qed.
#[local] Hint Resolve preserves_parse_sub_model : frame.

Lemma preserves_resolve_components (resolve : Z -> Py (list nat))
    (zf : ZipFile) (color_map : nat) (comps : list Element) :
  (forall ref_id, preserves_dicts (resolve ref_id)) ->
  forall results,
  preserves_dicts (resolve_components resolve zf color_map comps results).
Proof.
  intros Hres. induction comps as [| comp comps IH]; intros results;
    cbn [resolve_components]; frame.
Qed.

Lemma preserves_resolve_object (depth : nat) :
  forall obj_id all_objects zf model_path color_map,
  preserves_dicts
    (_resolve_object depth obj_id all_objects zf model_path color_map).
Proof.
  induction depth as [| depth IH]; intros obj_id all_objects zf model_path cm;
    cbn [_resolve_object]; frame.
  apply preserves_resolve_components. intros ref_id. apply IH.
Qed.

Lemma resolve_components_app (resolve : Z -> Py (list nat)) (zf : ZipFile)
    (color_map : nat) (before after : list Element) :
  forall results h,
  resolve_components resolve zf color_map (before ++ after) results h
  = (resolve_components resolve zf color_map before results
     ≫= resolve_components resolve zf color_map after) h.
Proof.
  induction before as [| comp before IH]; intros results h; [reflexivity |].
  cbn [app resolve_components]. rewrite !py_bind_run. unfold lift. cbv beta.
  destruct (int_attr (get comp "objectid")) as [ref_id | e]; [| reflexivity].
  cbv iota. rewrite !py_bind_run.
  match goal with |- context [(if ?b then ?x else ?y) h] =>
    destruct ((if b then x else y) h) as [h' [sub_objects | e]] end;
    [apply IH | reflexivity].
Qed.

(** C10: descending into a sub-part never changes a color map that exists
    already, the ambient one in particular: [_parse_sub_model] puts the
    merged entries in a new dictionary.  The same holds for
    [_resolve_object] and for its loop over any run [before] of component
    references, so the branch that follows them reads the ambient map with
    the content it has when no branch precedes it. *)
Theorem ambient_color_map_untouched :
  (forall zf sub_path ref_id color_map h r d,
     dict_store h !! r = Some d ->
     dict_store (_parse_sub_model zf sub_path ref_id color_map h).1 !! r = Some d)
  /\ (forall depth obj_id all_objects zf model_path color_map h r d,
        dict_store h !! r = Some d ->
        dict_store
          (_resolve_object depth obj_id all_objects zf model_path color_map h).1
        !! r = Some d)
  /\ (forall depth all_objects zf model_path color_map before after results h,
        let resolve ref_id :=
          _resolve_object depth ref_id all_objects zf model_path color_map in
        resolve_components resolve zf color_map (before ++ after) results h
        = (resolve_components resolve zf color_map before results
           ≫= resolve_components resolve zf color_map after) h
        /\ forall r d,
             dict_store h !! r = Some d ->
             dict_store
               (resolve_components resolve zf color_map before results h).1
             !! r = Some d).
Proof.
  split; [| split].
  - intros zf sub_path ref_id color_map h.
    apply (preserves_parse_sub_model zf sub_path ref_id color_map h).
  - intros depth obj_id all_objects zf model_path color_map h.
    apply (preserves_resolve_object depth obj_id all_objects zf model_path
             color_map h).
  - intros depth all_objects zf model_path color_map before after results h
      resolve.
    split; [apply resolve_components_app |].
    apply (preserves_resolve_components resolve zf color_map before).
    intros ref_id. apply preserves_resolve_object.
Qed.

(** C6 (as the code has it): a component whose part path is not in the
    archive makes [_parse_sub_model] return the empty list, without raising
    and without touching the store; the loop over the components goes on
    with the next component and the results so far. *)
Theorem missing_part_contributes_nothing (zf : ZipFile) (sub_path : string)
    (ref_id : Z) (color_map : nat) (h : Heap) :
  lstrip_slash sub_path ∉ namelist zf ->
  _parse_sub_model zf sub_path ref_id color_map h = (h, Ok [])
  /\ forall resolve comp rest results,
       int_attr (get comp "objectid") = Ok ref_id ->
       py_or (get comp (qname NS_P "path")) (get comp "path") = Some sub_path ->
       sub_path <> "" ->
       resolve_components resolve zf color_map (comp :: rest) results h
       = resolve_components resolve zf color_map rest results h.
Proof.
  intros Hmiss.
  assert (Hsub : _parse_sub_model zf sub_path ref_id color_map h = (h, Ok [])).
  { unfold _parse_sub_model.
    destruct (decide (lstrip_slash sub_path ∈ namelist zf)); [contradiction |].
    reflexivity. }
  split; [exact Hsub |].
  intros resolve comp rest results Hid Hpath Hne.
  cbn [resolve_components]. rewrite py_bind_run. unfold lift. rewrite Hid, Hpath.
  cbn [truthy from_option id].
  destruct (String.eqb_spec sub_path ""); [contradiction |].
  cbn [negb]. rewrite py_bind_run, Hsub, app_nil_r. reflexivity.
Qed.

Lemma sub_model_objects_skip (ref_id : Z) (merged : nat)
    (pre rest : list Element) (h : Heap) :
  Forall (no_mesh_for ref_id) pre ->
  sub_model_objects (pre ++ rest) ref_id merged h
  = sub_model_objects rest ref_id merged h.
Proof.
  induction 1 as [| obj_elem pre (oid & Hid & Hmesh) _ IH]; [reflexivity |].
  cbn [app sub_model_objects]. rewrite py_bind_run. unfold lift. rewrite Hid.
  destruct (Z.eqb_spec oid ref_id) as [Heq | _]; [| exact IH].
  rewrite (Hmesh Heq). exact IH.
Qed.

Lemma mesh_object_of_id (obj_elem mesh_elem : Element) (oid : Z)
    (obj_color : option string) (color_map : nat) (h h' : Heap) (m : MeshObject) :
  mesh_object_of obj_elem mesh_elem oid obj_color color_map h = (h', Ok m) ->
  obj_id m = oid /\ transform m = "".
Proof.
  unfold mesh_object_of. rewrite py_bind_run.
  destruct (_parse_mesh mesh_elem color_map h) as [h1 [[[vs ts] tc] | e]];
    [| discriminate].
  intros [= _ <-]. split; reflexivity.
Qed.

(** What [_parse_sub_model] does on a part that the archive has. *)
Lemma parse_sub_model_spec (zf : ZipFile) (sub_path : string) (ref_id : Z)
    (color_map : nat) (h : Heap) (root : Element) (amb : gmap (Z * Z) string)
    (h1 : Heap) (sub : nat) (loc : gmap (Z * Z) string) :
  lstrip_slash sub_path ∈ namelist zf ->
  parse_part zf (lstrip_slash sub_path) = Ok root ->
  dict_store h !! color_map = Some amb ->
  _extract_color_map root h = (h1, Ok sub) ->
  dict_store h1 !! sub = Some loc ->
  let merged := length (dict_store h1) in
  let h2 := {| mesh_store := mesh_store h1;
               dict_store := dict_store h1 ++ [dict_merge amb loc] |} in
  let objs := iter (qname NS_3MF "object") root in
  dict_store h2 !! merged = Some (dict_merge amb loc)
  /\ (forall k,
        dict_merge amb loc !! k
        = match loc !! k with Some c => Some c | None => amb !! k end)
  /\ _parse_sub_model zf sub_path ref_id color_map h
     = sub_model_objects objs ref_id merged h2
  /\ (Forall (no_mesh_for ref_id) objs ->
      _parse_sub_model zf sub_path ref_id color_map h = (h2, Ok []))
  /\ (forall pre obj_elem post mesh_elem,
        objs = pre ++ obj_elem :: post ->
        Forall (no_mesh_for ref_id) pre ->
        int_attr (get obj_elem "id") = Ok ref_id ->
        find (qname NS_3MF "mesh") obj_elem = Some mesh_elem ->
        _parse_sub_model zf sub_path ref_id color_map h
        = (obj_color ← object_color obj_elem merged;
           m ← mesh_object_of obj_elem mesh_elem ref_id obj_color merged;
           r ← new_mesh m;
           mret [r]) h2
        /\ forall h' l,
             _parse_sub_model zf sub_path ref_id color_map h = (h', Ok l) ->
             exists m,
               l = [length (mesh_store h)]
               /\ mesh_store h' = mesh_store h ++ [m]
               /\ obj_id m = ref_id).
Proof.
  intros Hin Hroot Hamb Hext Hloc merged h2 objs.
  pose proof (extract_color_map_run root h) as (Hmesh & Hframe & _).
  rewrite Hext in Hmesh, Hframe. cbn [fst] in Hmesh, Hframe.
  assert (Hrun : _parse_sub_model zf sub_path ref_id color_map h
                 = sub_model_objects objs ref_id merged h2).
  { unfold _parse_sub_model.
    destruct (decide (lstrip_slash sub_path ∈ namelist zf)); [| contradiction].
    rewrite py_bind_run. unfold lift. rewrite Hroot.
    rewrite py_bind_run, Hext.
    rewrite py_bind_run. unfold read_dict at 1. rewrite (Hframe _ _ Hamb).
    rewrite py_bind_run. unfold read_dict at 1. rewrite Hloc.
    rewrite py_bind_run. reflexivity. }
  split_and!.
  - unfold h2, merged. cbn [dict_store]. apply list_lookup_middle. reflexivity.
  - intros k. unfold dict_merge. rewrite lookup_union.
    destruct (loc !! k), (amb !! k); reflexivity.
  - exact Hrun.
  - intros Hnone. rewrite Hrun.
    rewrite <- (app_nil_r objs), sub_model_objects_skip by exact Hnone.
    reflexivity.
  - intros pre obj_elem post mesh_elem Hobjs Hpre Hid Hfind.
    assert (Hone : _parse_sub_model zf sub_path ref_id color_map h
                   = (obj_color ← object_color obj_elem merged;
                      m ← mesh_object_of obj_elem mesh_elem ref_id obj_color merged;
                      r ← new_mesh m;
                      mret [r]) h2).
    { rewrite Hrun, Hobjs, sub_model_objects_skip by exact Hpre.
      cbn [sub_model_objects]. rewrite py_bind_run. unfold lift. rewrite Hid.
      rewrite Z.eqb_refl, Hfind. reflexivity. }
    split; [exact Hone |].
    intros h' l. rewrite Hone, py_bind_run.
    pose proof (read_only_object_color obj_elem merged h2) as Hc.
    destruct (object_color obj_elem merged h2) as [hc [c | e]];
      [| discriminate].
    cbn [fst] in Hc. subst hc. rewrite py_bind_run.
    pose proof (read_only_mesh_object_of obj_elem mesh_elem ref_id c merged h2)
      as Hm.
    destruct (mesh_object_of obj_elem mesh_elem ref_id c merged h2)
      as [hm [m | e]] eqn:Em; [| discriminate].
    cbn [fst] in Hm. subst hm.
    rewrite py_bind_run. cbn [new_mesh]. intros [= <- <-].
    exists m. cbn [mesh_store h2]. unfold h2. cbn [mesh_store].
    rewrite Hmesh. split_and!; try reflexivity.
    eapply mesh_object_of_id; exact Em.
Qed.

(** Two build items that name the same mesh object of the root part: both
    entries of the build list are that one object, and it ends with the
    transform of the second item. *)
Lemma build_items_alias (depth : nat) (item1 item2 : Element)
    (all_objects : gmap Z resource) (zf : ZipFile) (model_path : string)
    (color_map : nat) (h : Heap) (obj_id : Z) (r : nat) (m : MeshObject) :
  int_attr (get item1 "objectid") = Ok obj_id ->
  int_attr (get item2 "objectid") = Ok obj_id ->
  all_objects !! obj_id = Some (RMesh r) ->
  mesh_store h !! r = Some m ->
  exists h',
    collect_build_items (S depth) [item1; item2] all_objects zf model_path
      color_map [] h
    = (h', Ok [r; r])
    /\ mesh_store h' !! r
       = Some (with_transform m (default "" (get item2 "transform"))).
Proof.
  intros Hid1 Hid2 Hobj Hm.
  assert (Hlt : (r < length (mesh_store h))%nat)
    by (eapply lookup_lt_Some; exact Hm).
  set (t1 := default "" (get item1 "transform")).
  set (t2 := default "" (get item2 "transform")).
  set (h1 := {| mesh_store := <[r := with_transform m t1]> (mesh_store h);
                dict_store := dict_store h |}).
  set (h2 := {| mesh_store := <[r := with_transform m t2]> (mesh_store h1);
                dict_store := dict_store h1 |}).
  assert (Hplace1 : place_objects [r] t1 [] h = (h1, Ok [r])).
  { cbn [place_objects]. rewrite py_bind_run. unfold set_transform.
    rewrite Hm. reflexivity. }
  assert (Hplace2 : place_objects [r] t2 [r] h1 = (h2, Ok [r; r])).
  { cbn [place_objects]. rewrite py_bind_run. unfold set_transform.
    cbn [mesh_store h1]. unfold h1 at 1. cbn [mesh_store].
    rewrite list_lookup_insert_eq by exact Hlt. reflexivity. }
  assert (Hres : forall h0,
            _resolve_object (S depth) obj_id all_objects zf model_path
              color_map h0 = (h0, Ok [r])).
  { intros h0. cbn [_resolve_object]. rewrite Hobj. reflexivity. }
  exists h2. split.
  - cbn [collect_build_items]. rewrite py_bind_run. unfold lift at 1.
    rewrite Hid1. cbv iota beta. rewrite py_bind_run, Hres.
    rewrite py_bind_run. fold t1. rewrite Hplace1.
    rewrite py_bind_run. unfold lift at 1.
    rewrite Hid2. cbv iota beta. rewrite py_bind_run, Hres.
    rewrite py_bind_run. fold t2. rewrite Hplace2. reflexivity.
  - unfold h2. cbn [mesh_store]. apply list_lookup_insert_eq.
    unfold h1. cbn [mesh_store]. rewrite length_insert. exact Hlt.
Qed.

End ResolverFacts.

(** ** The reader on concrete archives *)

#[local] Existing Instance plain_builtins.

Lemma ambient_color_map_untouched_witness :
  dict_store ambient_heap !! 0%nat = Some {[ (1, 0) := "#00FF00" ]}
  /\ dict_store
       (_parse_sub_model sub_part_zip "/3D/Objects/part.model" 5 0 ambient_heap).1
     !! 0%nat = Some {[ (1, 0) := "#00FF00" ]}.
Proof.
  split; [reflexivity |].
  apply (proj1 ambient_color_map_untouched). reflexivity.
Defined.

Lemma gone_not_in_archive :
  lstrip_slash "/3D/Objects/gone.model" ∉ namelist missing_part_zip.
Proof.
  intros Hin. apply list_elem_of_In in Hin. cbn in Hin.
  destruct Hin as [Heq | []]. discriminate Heq.
Qed.

Lemma missing_part_contributes_nothing_witness :
  (lstrip_slash "/3D/Objects/gone.model" ∉ namelist missing_part_zip)
  /\ _parse_sub_model missing_part_zip "/3D/Objects/gone.model" 5 0 empty_heap
     = (empty_heap, Ok []).
Proof.
  split; [exact gone_not_in_archive |].
  exact (proj1 (missing_part_contributes_nothing missing_part_zip
                  "/3D/Objects/gone.model" 5 0 empty_heap gone_not_in_archive)).
Defined.

(** C6 as stated fails: the archive lacks the part that the second
    component names, and the reader returns normally, with the object of
    the first component. *)
Lemma missing_part_not_fatal :
  (lstrip_slash "/3D/Objects/gone.model" ∉ namelist missing_part_zip)
  /\ parsed_objects 10 missing_part_zip
     = Ok [Some {| name := "cube"; obj_id := 1;
                   vertices := [pt "0" "0" "0"; pt "1" "0" "0"; pt "0" "1" "0";
                                pt "0" "0" "1"];
                   triangles := [(0, 1, 2); (0, 2, 3)];
                   color := "#808080"; transform := "" |}]
  /\ ~ exists e, parsed_objects 10 missing_part_zip = Raise e.
Proof.
  split; [exact gone_not_in_archive |].
  split; [vm_compute; reflexivity |].
  intros [e He]. vm_compute in He. discriminate He.
Qed.

(** C7 (as the code has it): for a component that names a part of the
    archive, the lookup runs against a new dictionary that holds the
    ambient color map overridden by the entries of the sub-part, and it
    considers the mesh-bearing object elements of the sub-part only.  When
    no object element with the referenced id carries a mesh (a components
    container, an unknown id) the result is empty; otherwise it is exactly
    one new [MeshObject], built from the first such element.  On
    [sub_part_zip], whose sub-part defines the id with a 2-triangle mesh
    and its own color, the result is that one object with 2 triangles and
    the color of the sub-part. *)
Theorem sub_part_resolution :
  (forall (B : PyBuiltins) (zf : ZipFile) (sub_path : string) (ref_id : Z)
      (color_map : nat) (h : Heap) (root : Element)
      (amb : gmap (Z * Z) string) (h1 : Heap) (sub : nat)
      (loc : gmap (Z * Z) string),
     lstrip_slash sub_path ∈ namelist zf ->
     parse_part zf (lstrip_slash sub_path) = Ok root ->
     dict_store h !! color_map = Some amb ->
     _extract_color_map root h = (h1, Ok sub) ->
     dict_store h1 !! sub = Some loc ->
     let merged := length (dict_store h1) in
     let h2 := {| mesh_store := mesh_store h1;
                  dict_store := dict_store h1 ++ [dict_merge amb loc] |} in
     let objs := iter (qname NS_3MF "object") root in
     dict_store h2 !! merged = Some (dict_merge amb loc)
     /\ (forall k,
           dict_merge amb loc !! k
           = match loc !! k with Some c => Some c | None => amb !! k end)
     /\ _parse_sub_model zf sub_path ref_id color_map h
        = sub_model_objects objs ref_id merged h2
     /\ (Forall (no_mesh_for ref_id) objs ->
         _parse_sub_model zf sub_path ref_id color_map h = (h2, Ok []))
     /\ (forall pre obj_elem post mesh_elem,
           objs = pre ++ obj_elem :: post ->
           Forall (no_mesh_for ref_id) pre ->
           int_attr (get obj_elem "id") = Ok ref_id ->
           find (qname NS_3MF "mesh") obj_elem = Some mesh_elem ->
           _parse_sub_model zf sub_path ref_id color_map h
           = (obj_color ← object_color obj_elem merged;
              m ← mesh_object_of obj_elem mesh_elem ref_id obj_color merged;
              r ← new_mesh m;
              mret [r]) h2
           /\ forall h' l,
                _parse_sub_model zf sub_path ref_id color_map h = (h', Ok l) ->
                exists m,
                  l = [length (mesh_store h)]
                  /\ mesh_store h' = mesh_store h ++ [m]
                  /\ obj_id m = ref_id))
  /\ parsed_objects 10 sub_part_zip
     = Ok [Some {| name := "object_5"; obj_id := 5;
                   vertices := [pt "0" "0" "0"; pt "1" "0" "0"; pt "0" "1" "0";
                                pt "0" "0" "1"];
                   triangles := [(0, 1, 2); (0, 2, 3)];
                   color := "#FF0000"; transform := "" |}].
Proof.
  split; [| vm_compute; reflexivity].
  intros B. exact (@parse_sub_model_spec B).
Qed.

Lemma sub_part_resolution_witness :
  lstrip_slash "/3D/Objects/part.model" ∈ namelist sub_part_zip
  /\ parse_part sub_part_zip (lstrip_slash "/3D/Objects/part.model")
     = Ok sub_part_root
  /\ dict_store ambient_heap !! 0%nat = Some {[ (1, 0) := "#00FF00" ]}
  /\ _extract_color_map sub_part_root ambient_heap
     = ({| mesh_store := [];
           dict_store := [{[ (1, 0) := "#00FF00" ]}; {[ (1, 0) := "#FF0000" ]}] |},
        Ok 1%nat)
  /\ _parse_sub_model sub_part_zip "/3D/Objects/part.model" 5 0 ambient_heap
     = sub_model_objects (iter (qname NS_3MF "object") sub_part_root) 5 2
         {| mesh_store := [];
            dict_store := [{[ (1, 0) := "#00FF00" ]}; {[ (1, 0) := "#FF0000" ]};
                           dict_merge {[ (1, 0) := "#00FF00" ]}
                             {[ (1, 0) := "#FF0000" ]}] |}.
Proof.
  assert (H1 : lstrip_slash "/3D/Objects/part.model" ∈ namelist sub_part_zip).
  { apply list_elem_of_In. cbn. auto. }
  assert (H2 : parse_part sub_part_zip (lstrip_slash "/3D/Objects/part.model")
               = Ok sub_part_root) by reflexivity.
  assert (H3 : dict_store ambient_heap !! 0%nat = Some {[ (1, 0) := "#00FF00" ]})
    by reflexivity.
  assert (H4 : _extract_color_map sub_part_root ambient_heap
               = ({| mesh_store := [];
                     dict_store := [{[ (1, 0) := "#00FF00" ]};
                                    {[ (1, 0) := "#FF0000" ]}] |},
                  Ok 1%nat)) by (vm_compute; reflexivity).
  assert (H5 : dict_store
                 {| mesh_store := [];
                    dict_store := [{[ (1, 0) := "#00FF00" ]};
                                   {[ (1, 0) := "#FF0000" ]}] |} !! 1%nat
               = Some {[ (1, 0) := "#FF0000" ]}) by reflexivity.
  split_and!; try assumption.
  exact (proj1 (proj2 (proj2
           (proj1 sub_part_resolution plain_builtins sub_part_zip
              "/3D/Objects/part.model" 5 0%nat ambient_heap sub_part_root
              _ _ _ _ H1 H2 H3 H4 H5)))).
Defined.

(** C7 as stated fails: object 5 of the sub-part is a components container
    whose child, object 6 of the same part, is a mesh; nothing is resolved
    through object 5. *)
Lemma nested_container_not_resolved :
  lstrip_slash "/3D/Objects/part.model" ∈ namelist nested_zip
  /\ (_parse_sub_model nested_zip "/3D/Objects/part.model" 5 0 ambient_heap).2
     = Ok []
  /\ parsed_objects 10 nested_zip = Ok [].
Proof.
  split; [apply list_elem_of_In; cbn; auto |].
  split; vm_compute; reflexivity.
Qed.

(** C8 (the code on two build items of one object): both entries of the
    final object sequence are the same [MeshObject], which carries the
    transform of the second item; the transform of the first item is lost. *)
Theorem instanced_items_share_transform :
  parsed_objects 10 instanced_zip
  = Ok [Some {| name := "cube"; obj_id := 1;
                vertices := [pt "0" "0" "0"; pt "1" "0" "0"; pt "0" "1" "0";
                             pt "0" "0" "1"];
                triangles := [(0, 1, 2); (0, 2, 3)];
                color := "#808080";
                transform := "1 0 0 0 1 0 0 0 1 50 0 0" |};
        Some {| name := "cube"; obj_id := 1;
                vertices := [pt "0" "0" "0"; pt "1" "0" "0"; pt "0" "1" "0";
                             pt "0" "0" "1"];
                triangles := [(0, 1, 2); (0, 2, 3)];
                color := "#808080";
                transform := "1 0 0 0 1 0 0 0 1 50 0 0" |}].
Proof. vm_compute. reflexivity. Qed.

(** * Further properties of the converter *)

(** ** The paint-state encoder on all integers *)

Lemma land_one (s : Z) : Z.land s 1 = s mod 2.
Proof. exact (Z.land_ones s 1 ltac:(lia)). Qed.

Lemma leaf_nibble (s : Z) :
  Z.land s 1 * 4 + Z.land (Z.shiftr s 1) 1 * 8 = 4 * (s mod 4).
Proof.
  rewrite !land_one, Z.shiftr_div_pow2 by lia.
  change (2 ^ 1) with 2.
  pose proof (Z.rem_mul_r s 2 2 ltac:(lia) ltac:(lia)) as Hr.
  change (2 * 2) with 4 in Hr. lia.
Qed.

Lemma encode_paint_color_leaf_digit (s : Z) :
  s <= 2 -> s <> 0 ->
  encode_paint_color s = String (hex_char (4 * (s mod 4))) EmptyString.
Proof.
  intros Hs H0. unfold encode_paint_color.
  destruct (Z.eqb_spec s 0); [contradiction |].
  destruct (Z.leb_spec s 2); [| lia].
  rewrite leaf_nibble. apply format_X_digit.
  pose proof (Z.mod_pos_bound s 4 ltac:(lia)).
  assert (s mod 4 = 0 \/ s mod 4 = 1 \/ s mod 4 = 2 \/ s mod 4 = 3) as Hc by lia.
  lia.
Qed.

(** Below 3 and apart from 0, the state is not checked: the output is the
    one digit of [4 * (state mod 4)], so negative states fall on the codes
    of other states. *)
Theorem encode_paint_color_small (s : Z) :
  s <= 2 -> s <> 0 ->
  encode_paint_color s = String (hex_char (4 * (s mod 4))) EmptyString.
Proof. exact (encode_paint_color_leaf_digit s). Qed.

Lemma encode_paint_color_small_witness :
  -3 <= 2 /\ -3 <> 0
  /\ encode_paint_color (-3) = "4" /\ encode_paint_color (-3) = encode_paint_color 1.
Proof.
  assert (H1 : -3 <= 2) by lia.
  assert (H2 : -3 <> 0) by lia.
  split_and!; try assumption.
  - exact (encode_paint_color_small (-3) H1 H2).
  - reflexivity.
Defined.

Lemma Forall_hex_rev_extended (ext : Z) :
  0 <= ext ->
  Forall (fun c => is_Some (hex_value c)) (rev (extended_chars ext)).
Proof.
  intros Hext. apply Forall_rev. unfold extended_chars.
  apply Forall_cons. split; [eexists; reflexivity |].
  apply Forall_app. split.
  - generalize (Z.to_nat (ext / 15)) as k. induction k as [| k IH].
    + constructor.
    + apply Forall_cons. split; [eexists; reflexivity | exact IH].
  - apply Forall_cons. split; [| constructor].
    rewrite hex_value_char; [eauto |].
    pose proof (Z.mod_pos_bound ext 15 ltac:(lia)). lia.
Qed.

Lemma length_string_of_list_ascii (cs : list ascii) :
  String.length (string_of_list_ascii cs) = length cs.
Proof. induction cs as [| c cs IH]; [reflexivity | simpl; now rewrite IH]. Qed.

(** Whatever the integer, the output holds upper-case hexadecimal digits
    only (so it needs no escaping as an attribute value); from state 3 on
    its length is 2 plus the number of full 15s in [state - 3]. *)
Theorem encode_paint_color_chars (s : Z) :
  Forall (fun c => is_Some (hex_value c))
    (list_ascii_of_string (encode_paint_color s))
  /\ (3 <= s ->
      String.length (encode_paint_color s) = S (S (Z.to_nat ((s - 3) / 15)))).
Proof.
  split.
  - destruct (Z_lt_le_dec s 3) as [Hlt | Hge].
    + destruct (Z.eq_dec s 0) as [-> | H0]; [constructor |].
      rewrite encode_paint_color_leaf_digit by lia.
      apply Forall_cons. split; [| constructor].
      pose proof (Z.mod_pos_bound s 4 ltac:(lia)).
      rewrite hex_value_char by lia. eauto.
    + rewrite encode_extended by exact Hge.
      rewrite list_ascii_of_string_of_list_ascii.
      apply Forall_hex_rev_extended. lia.
  - intros Hge. rewrite encode_extended by exact Hge.
    rewrite length_string_of_list_ascii, length_rev.
    unfold extended_chars. cbn [length].
    rewrite length_app, repeat_length. cbn [length]. lia.
Qed.

(** ** Finding the root part *)

Lemma find_first {A} (f : A -> bool) (l : list A) (x : A) :
  List.find f l = Some x ->
  exists pre post,
    l = pre ++ x :: post /\ f x = true /\ Forall (fun y => f y = false) pre.
Proof.
  induction l as [| y l IH]; [discriminate |]. cbn [List.find].
  destruct (f y) eqn:Ey.
  - intros [= ->]. exists [], l. repeat split; [exact Ey | constructor].
  - intros (pre & post & -> & Hx & Hpre)%IH.
    exists (y :: pre), post. repeat split; [exact Hx |].
    constructor; assumption.
Qed.

Lemma find_model_path_cases (zf : ZipFile) :
  match _find_model_path zf with
  | Ok p =>
      p ∈ namelist zf
      /\ endswith p ".model" = true
      /\ ("3D/3dmodel.model" ∈ namelist zf -> p = "3D/3dmodel.model")
      /\ ("3D/3dmodel.model" ∉ namelist zf ->
          exists pre post,
            namelist zf = pre ++ p :: post
            /\ Forall (fun n => endswith n ".model" = false) pre)
  | Raise e =>
      e = ValueError
      /\ Forall (fun n => endswith n ".model" = false) (namelist zf)
  end.
Proof.
  unfold _find_model_path.
  destruct (decide ("3D/3dmodel.model" ∈ namelist zf)) as [Hin | Hnin].
  - split_and!; [exact Hin | reflexivity | reflexivity | contradiction].
  - destruct (List.find _ (namelist zf)) as [p |] eqn:Ef.
    + destruct (find_first _ _ _ Ef) as (pre & post & Hl & Hp & Hpre).
      split_and!.
      * rewrite Hl, elem_of_app, elem_of_cons. auto.
      * exact Hp.
      * contradiction.
      * intros _. exists pre, post. split; assumption.
    + split; [reflexivity |]. apply List.Forall_forall.
      intros n Hn. exact (find_none _ _ Ef n Hn).
Qed.

(** The root part is the well-known path when the archive has it, else the
    first entry whose name ends in [.model]; the only failure is a
    [ValueError], exactly when no name ends in [.model]. *)
Theorem find_model_path_spec (zf : ZipFile) :
  match _find_model_path zf with
  | Ok p =>
      p ∈ namelist zf
      /\ endswith p ".model" = true
      /\ ("3D/3dmodel.model" ∈ namelist zf -> p = "3D/3dmodel.model")
      /\ ("3D/3dmodel.model" ∉ namelist zf ->
          exists pre post,
            namelist zf = pre ++ p :: post
            /\ Forall (fun n => endswith n ".model" = false) pre)
  | Raise e =>
      e = ValueError
      /\ Forall (fun n => endswith n ".model" = false) (namelist zf)
  end.
Proof. exact (find_model_path_cases zf). Qed.

Section ReaderErrors.
Context `{PyBuiltins}.

(** An archive in which no name ends in [.model] makes the reader raise
    [ValueError] before it creates any object. *)
Theorem parse_input_3mf_no_model (depth : nat) (zf : ZipFile) (h : Heap) :
  Forall (fun n => endswith n ".model" = false) (namelist zf) ->
  parse_input_3mf depth zf h = (h, Raise ValueError).
Proof.
  intros Hnone. unfold parse_input_3mf. rewrite py_bind_run. unfold lift.
  pose proof (find_model_path_cases zf) as Hspec.
  destruct (_find_model_path zf) as [p | e].
  - destruct Hspec as (Hin & Hp & _).
    rewrite List.Forall_forall in Hnone.
    apply list_elem_of_In in Hin. rewrite (Hnone p Hin) in Hp. discriminate.
  - destruct Hspec as [-> _]. reflexivity.
Qed.

End ReaderErrors.

Lemma parse_input_3mf_no_model_witness :
  Forall (fun n => endswith n ".model" = false)
    (namelist [("Metadata/readme.txt", None)])
  /\ @parse_input_3mf plain_builtins 10 [("Metadata/readme.txt", None)] empty_heap
     = (empty_heap, Raise ValueError).
Proof.
  assert (H1 : Forall (fun n => endswith n ".model" = false)
                 (namelist [("Metadata/readme.txt", None)]))
    by (repeat constructor).
  exact (conj H1 (parse_input_3mf_no_model 10 _ empty_heap H1)).
Defined.

(** ** The extruder mapper *)

Section MapperFacts.
Context `{PyBuiltins}.

Lemma map_colors_to_extruders_snoc (objects : list MeshObject) (obj : MeshObject) :
  map_colors_to_extruders (objects ++ [obj])
  = assign_slot (map_colors_to_extruders objects) obj.
Proof. unfold map_colors_to_extruders. now rewrite fold_left_app. Qed.

Lemma map_colors_to_extruders_app (pre post : list MeshObject) :
  map_colors_to_extruders (pre ++ post)
  = fold_left assign_slot post (map_colors_to_extruders pre).
Proof. unfold map_colors_to_extruders. now rewrite fold_left_app. Qed.

Lemma assign_slot_keeps (seen : gmap string Z) (obj : MeshObject)
    (c : string) (n : Z) :
  seen !! c = Some n -> assign_slot seen obj !! c = Some n.
Proof.
  intros Hc. unfold assign_slot.
  destruct (seen !! color obj) eqn:E; [exact Hc |].
  rewrite lookup_insert_ne; [exact Hc | congruence].
Qed.

Lemma assign_slots_keep (objects : list MeshObject) :
  forall (seen : gmap string Z) (c : string) (n : Z),
  seen !! c = Some n -> fold_left assign_slot objects seen !! c = Some n.
Proof.
  induction objects as [| obj objects IH]; intros seen c n Hc; [exact Hc |].
  cbn [fold_left]. apply IH, assign_slot_keeps, Hc.
Qed.

Lemma map_colors_to_extruders_inv (objects : list MeshObject) :
  let m := map_colors_to_extruders objects in
  (forall c, is_Some (m !! c) <-> c ∈ map color objects)
  /\ (forall c n, m !! c = Some n -> 1 <= n <= Z.of_nat (size m))
  /\ (forall n, 1 <= n <= Z.of_nat (size m) -> exists c, m !! c = Some n)
  /\ (forall c1 c2 n, m !! c1 = Some n -> m !! c2 = Some n -> c1 = c2).
Proof.
  induction objects as [| obj objects IH] using rev_ind.
  - cbv zeta. change (map_colors_to_extruders []) with (∅ : gmap string Z).
    split_and!.
    + intros c. rewrite lookup_empty. split; [intros [? [=]] |].
      intros ?%elem_of_nil. contradiction.
    + intros c n. rewrite lookup_empty. discriminate.
    + intros n. rewrite map_size_empty. lia.
    + intros c1 c2 n. rewrite lookup_empty. discriminate.
  - cbv zeta in IH |- *. rewrite map_colors_to_extruders_snoc.
    set (m := map_colors_to_extruders objects) in *.
    destruct IH as (Hdom & Hrange & Hsurj & Hinj).
    rewrite map_app. cbn [map]. unfold assign_slot.
    destruct (m !! color obj) as [k |] eqn:E.
    + split_and!; try assumption.
      intros c. rewrite Hdom, elem_of_app, elem_of_cons, elem_of_nil.
      split; [auto |]. intros [Hc | [-> | []]]; [exact Hc |].
      apply Hdom. eauto.
    + assert (Hsize : size (<[color obj := Z.of_nat (size m) + 1]> m)
                      = S (size m)) by (now apply map_size_insert_None).
      rewrite Hsize. split_and!.
      * intros c. rewrite lookup_insert, elem_of_app, elem_of_cons, elem_of_nil.
        case_decide as Hc.
        -- subst c. split; [auto | eauto].
        -- rewrite Hdom. split; [auto |].
           intros [Hin | [-> | []]]; [exact Hin | congruence].
      * intros c n. rewrite lookup_insert. case_decide.
        -- intros [= <-]. lia.
        -- intros Hn%Hrange. lia.
      * intros n Hn. destruct (Z.eq_dec n (Z.of_nat (size m) + 1)) as [-> | Hne].
        -- exists (color obj). apply lookup_insert_eq.
        -- destruct (Hsurj n ltac:(lia)) as [c Hc]. exists c.
           rewrite lookup_insert_ne; [exact Hc | congruence].
      * intros c1 c2 n. rewrite !lookup_insert.
        repeat case_decide; subst.
        -- reflexivity.
        -- intros [= <-] Hn%Hrange. lia.
        -- intros Hn%Hrange [= <-]. lia.
        -- apply Hinj.
Qed.

(** The slots are the numbers 1 to k, one for each of the k distinct colors
    of the objects, and no other color has a slot. *)
Theorem map_colors_to_extruders_slots (objects : list MeshObject) :
  let m := map_colors_to_extruders objects in
  (forall c, is_Some (m !! c) <-> c ∈ map color objects)
  /\ (forall c n, m !! c = Some n -> 1 <= n <= Z.of_nat (size m))
  /\ (forall n, 1 <= n <= Z.of_nat (size m) -> exists c, m !! c = Some n)
  /\ (forall c1 c2 n, m !! c1 = Some n -> m !! c2 = Some n -> c1 = c2).
Proof. exact (map_colors_to_extruders_inv objects). Qed.

(** Slots follow first-seen order and are stable: the objects that come
    later change no slot already given, and a color that is new after the
    objects [pre] gets the next number. *)
Theorem map_colors_to_extruders_first_seen (pre post : list MeshObject) :
  (forall c n,
     map_colors_to_extruders pre !! c = Some n ->
     map_colors_to_extruders (pre ++ post) !! c = Some n)
  /\ (forall obj,
        color obj ∉ map color pre ->
        map_colors_to_extruders (pre ++ obj :: post) !! color obj
        = Some (Z.of_nat (size (map_colors_to_extruders pre)) + 1)).
Proof.
  split.
  - intros c n Hc. rewrite map_colors_to_extruders_app.
    apply assign_slots_keep, Hc.
  - intros obj Hnew. rewrite map_colors_to_extruders_app. cbn [fold_left].
    apply assign_slots_keep. unfold assign_slot.
    destruct (map_colors_to_extruders pre !! color obj) as [k |] eqn:E.
    + exfalso. apply Hnew.
      apply (proj1 (map_colors_to_extruders_inv pre)). eauto.
    + apply lookup_insert_eq.
Qed.

End MapperFacts.

(** The colors red, blue, red get the slots red 1 and blue 2. *)
Lemma map_colors_to_extruders_first_seen_witness :
  let red := {| name := "r"; obj_id := 1; vertices := []; triangles := [];
                color := "#FF0000"; transform := "" |} in
  let blue := {| name := "b"; obj_id := 2; vertices := []; triangles := [];
                 color := "#0000FF"; transform := "" |} in
  (color blue ∉ map color [red])
  /\ @map_colors_to_extruders plain_builtins ([red] ++ blue :: [red]) !! color blue
     = Some 2
  /\ @map_colors_to_extruders plain_builtins [red; blue; red]
     = {[ "#FF0000" := 1; "#0000FF" := 2 ]}.
Proof.
  intros red blue.
  assert (H1 : color blue ∉ map color [red]).
  { intros Hin. apply list_elem_of_In in Hin. cbn in Hin.
    destruct Hin as [Heq | []]. discriminate Heq. }
  split_and!.
  - exact H1.
  - exact (proj2 (map_colors_to_extruders_first_seen [red] [red]) blue H1).
  - vm_compute. reflexivity.
Defined.

(** ** The mesh merger: failures, geometry, composition with the mapper *)

Section MergerMore.
Context `{PyBuiltins}.

Lemma merge_loop_missing (extruder_map : gmap string Z) (default_extruder : Z)
    (objects : list MeshObject) (obj : MeshObject) :
  obj ∈ objects ->
  extruder_map !! color obj = None ->
  forall all_vertices all_triangles paint_colors,
  merge_loop extruder_map default_extruder objects
    all_vertices all_triangles paint_colors
  = Raise KeyError.
Proof.
  intros Hin Hnone. induction objects as [| o objects IH]; intros vs ts pcs.
  - apply elem_of_nil in Hin. contradiction.
  - cbn [merge_loop]. unfold getitem at 1.
    destruct (extruder_map !! color o) as [slot |] eqn:E; [| reflexivity].
    cbn [mbind result_bind]. rewrite paint_tag_eqb, append_triangles_spec.
    apply IH. apply elem_of_cons in Hin as [-> | Hin]; [congruence | exact Hin].
Qed.

Lemma merge_loop_Ok_covers (extruder_map : gmap string Z) (default_extruder : Z)
    (objects : list MeshObject) :
  forall all_vertices all_triangles paint_colors res,
  merge_loop extruder_map default_extruder objects
    all_vertices all_triangles paint_colors
  = Ok res ->
  covers extruder_map objects.
Proof.
  intros vs ts pcs res Hok obj Hin.
  destruct (extruder_map !! color obj) as [slot |] eqn:E; [eauto |].
  rewrite (merge_loop_missing _ _ _ obj Hin E) in Hok. discriminate.
Qed.

(** What a successful run of the merger has returned. *)
Lemma merge_objects_painted_Ok (objects : list MeshObject)
    (extruder_map : gmap string Z) (merged : MeshObject)
    (paint_colors : list string) (default_extruder : Z) :
  merge_objects_painted objects extruder_map
  = Ok (merged, paint_colors, default_extruder) ->
  exists first rest,
    objects = first :: rest
    /\ covers extruder_map objects
    /\ extruder_map !! color merged = Some default_extruder
    /\ color merged ∈ map color objects
    /\ merged = {| name := "merged"; obj_id := 1;
                   vertices := concat (map vertices objects);
                   triangles := shifted_triangles 0 objects;
                   color := color merged;
                   transform := transform first |}
    /\ paint_colors = paint_tags extruder_map default_extruder objects.
Proof.
  intros Hok. destruct objects as [| first rest]; [discriminate |].
  destruct (default_color_spec (first :: rest) ltac:(discriminate))
    as (pre & obj & post & Hsplit & Hmax & _ & _).
  unfold merge_objects_painted in Hok. rewrite Hmax in Hok.
  cbn [mbind result_bind] in Hok. unfold getitem at 1 in Hok.
  destruct (extruder_map !! color obj) as [d |] eqn:Ed; [| discriminate].
  cbn [mbind result_bind] in Hok.
  destruct (merge_loop extruder_map d (first :: rest) [] [] []) as [res | e] eqn:El;
    [| discriminate].
  pose proof (merge_loop_Ok_covers _ _ _ _ _ _ _ El) as Hcov.
  rewrite (merge_loop_spec _ _ _ Hcov) in El. injection El as <-.
  cbn [mbind result_bind app length] in Hok. injection Hok as <- <- <-.
  exists first, rest. cbn [color]. split_and!; try reflexivity; try assumption.
  rewrite Hsplit, map_app, elem_of_app. right. left.
Qed.

(** A color without a slot makes the merger raise [KeyError]. *)
Theorem merge_objects_painted_missing_color (objects : list MeshObject)
    (extruder_map : gmap string Z) (obj : MeshObject) :
  obj ∈ objects ->
  extruder_map !! color obj = None ->
  merge_objects_painted objects extruder_map = Raise KeyError.
Proof.
  intros Hin Hnone.
  assert (Hne : objects <> []).
  { intros ->. apply elem_of_nil in Hin. contradiction. }
  destruct (default_color_spec objects Hne)
    as (pre & o & post & Hsplit & Hmax & _ & _).
  unfold merge_objects_painted. rewrite Hmax. cbn [mbind result_bind].
  unfold getitem at 1.
  destruct (extruder_map !! color o) as [d |]; [| reflexivity].
  cbn [mbind result_bind].
  rewrite (merge_loop_missing _ _ _ obj Hin Hnone). reflexivity.
Qed.

Lemma lookup_repeat {A} (x : A) (n j : nat) :
  (j < n)%nat -> repeat x n !! j = Some x.
Proof.
  revert j. induction n as [| n IH]; intros [| j] Hj; try lia; [reflexivity |].
  cbn. apply IH. lia.
Qed.

Lemma shifted_triangles_app (pre post : list MeshObject) (offset : Z) :
  shifted_triangles offset (pre ++ post)
  = shifted_triangles offset pre
    ++ shifted_triangles (offset + Z.of_nat (vertex_count pre)) post.
Proof.
  revert offset. induction pre as [| o pre IH]; intros offset.
  - cbn. now rewrite Z.add_0_r.
  - cbn [app shifted_triangles]. rewrite IH, <- app_assoc.
    unfold vertex_count. cbn [sum_list_with]. do 3 f_equal. lia.
Qed.

(** The merged mesh keeps the geometry: the vertices of every object sit
    unchanged after those of the objects before it, its triangles sit after
    theirs with each index moved by that vertex count, and the paint-state
    entry at the place of a triangle is the one of its object. *)
Theorem merge_objects_painted_geometry (objects pre post : list MeshObject)
    (obj : MeshObject) (extruder_map : gmap string Z) (merged : MeshObject)
    (paint_colors : list string) (default_extruder : Z) :
  merge_objects_painted objects extruder_map
  = Ok (merged, paint_colors, default_extruder) ->
  objects = pre ++ obj :: post ->
  (forall i, (i < length (vertices obj))%nat ->
     vertices merged !! (vertex_count pre + i)%nat = vertices obj !! i)
  /\ (forall j, (j < length (triangles obj))%nat ->
        triangles merged !! (triangle_count pre + j)%nat
        = shift_triangle (Z.of_nat (vertex_count pre)) <$> triangles obj !! j
        /\ paint_colors !! (triangle_count pre + j)%nat
           = Some (paint_tag default_extruder
                     (default 0 (extruder_map !! color obj)))).
Proof.
  intros Hok Hsplit.
  destruct (merge_objects_painted_Ok _ _ _ _ _ Hok)
    as (first & rest & _ & _ & _ & _ & Hm & Hpc).
  rewrite Hm, Hpc. cbn [vertices triangles]. subst objects. split.
  - intros i Hi. rewrite map_app, concat_app. cbn [map concat].
    rewrite lookup_app_r;
      rewrite length_concat_vertices; unfold vertex_count; [| lia].
    replace (_ + i - _)%nat with i by lia.
    now apply lookup_app_l.
  - intros j Hj. split.
    + rewrite shifted_triangles_app. cbn [shifted_triangles].
      rewrite lookup_app_r;
        rewrite length_shifted_triangles; unfold triangle_count; [| lia].
      replace (_ + j - _)%nat with j by lia.
      rewrite lookup_app_l by (now rewrite length_map).
      rewrite Z.add_0_l. unfold vertex_count.
      rewrite <- list_lookup_fmap. reflexivity.
    + unfold paint_tags. rewrite map_app, concat_app. cbn [map concat].
      fold (paint_tags extruder_map default_extruder pre).
      rewrite lookup_app_r;
        rewrite length_paint_tags; unfold triangle_count; [| lia].
      replace (_ + j - _)%nat with j by lia.
      rewrite lookup_app_l by (now rewrite repeat_length).
      apply lookup_repeat. exact Hj.
Qed.

Lemma merge_objects_painted_succeeds (objects : list MeshObject)
    (extruder_map : gmap string Z) :
  objects <> [] ->
  covers extruder_map objects ->
  exists merged paint_colors default_extruder,
    merge_objects_painted objects extruder_map
    = Ok (merged, paint_colors, default_extruder).
Proof.
  intros Hne Hcov.
  destruct (default_color_spec objects Hne)
    as (pre & obj & post & Hsplit & Hmax & _ & _).
  destruct (Hcov obj) as [d Hd].
  { rewrite Hsplit, elem_of_app, elem_of_cons. auto. }
  unfold merge_objects_painted. rewrite Hmax. cbn [mbind result_bind].
  unfold getitem at 1. rewrite Hd. cbn [mbind result_bind].
  rewrite (merge_loop_spec _ _ _ Hcov). cbn [mbind result_bind].
  eauto.
Qed.

Lemma paint_tags_one_color (extruder_map : gmap string Z) (d : Z) (c : string)
    (objects : list MeshObject) :
  (forall o, o ∈ objects -> color o = c) ->
  extruder_map !! c = Some d ->
  paint_tags extruder_map d objects = repeat "" (triangle_count objects).
Proof.
  intros Hc Hd. unfold paint_tags, triangle_count.
  induction objects as [| o objects IH]; [reflexivity |].
  cbn [map concat sum_list_with]. rewrite repeat_app.
  rewrite IH by (intros o' Ho'; apply Hc; now right).
  rewrite (Hc o) by left. rewrite Hd. cbn [from_option id].
  unfold paint_tag. destruct (decide (d = d)); [reflexivity | congruence].
Qed.

(** Objects of one color: the merger succeeds, the default slot is the slot
    of that color and no triangle is painted. *)
Theorem merge_objects_painted_one_color (objects : list MeshObject)
    (extruder_map : gmap string Z) (c : string) (d : Z) :
  objects <> [] ->
  (forall o, o ∈ objects -> color o = c) ->
  extruder_map !! c = Some d ->
  exists merged,
    merge_objects_painted objects extruder_map
    = Ok (merged, repeat "" (triangle_count objects), d)
    /\ color merged = c.
Proof.
  intros Hne Hc Hd.
  assert (Hcov : covers extruder_map objects).
  { intros o Ho. rewrite (Hc o Ho), Hd. eauto. }
  destruct (merge_objects_painted_succeeds objects extruder_map Hne Hcov)
    as (merged & pcs & d' & Hok).
  destruct (merge_objects_painted_Ok _ _ _ _ _ Hok)
    as (first & rest & _ & _ & Hd' & Hin & _ & Hpcs).
  apply elem_of_map in Hin as (o & Ho & Hoin).
  assert (Hmc : color merged = c) by (rewrite <- Ho; now apply Hc).
  rewrite Hmc, Hd in Hd'. injection Hd' as <-.
  exists merged. split; [| exact Hmc].
  rewrite Hok, Hpcs, (paint_tags_one_color _ _ c) by assumption. reflexivity.
Qed.

(** The merger applied to the map that [map_colors_to_extruders] builds
    from the same, non-empty, objects never fails; the default slot is one
    of the slots in use, the merged object is named [merged], has id 1, the
    vertices of the objects one after the other and the transform of the
    first object, and there are as many paint-state entries as triangles. *)
Theorem merge_after_mapper (first : MeshObject) (rest : list MeshObject) :
  let objects := first :: rest in
  let extruder_map := map_colors_to_extruders objects in
  exists merged paint_colors default_extruder,
    merge_objects_painted objects extruder_map
    = Ok (merged, paint_colors, default_extruder)
    /\ 1 <= default_extruder <= Z.of_nat (size extruder_map)
    /\ name merged = "merged" /\ obj_id merged = 1
    /\ vertices merged = concat (map vertices objects)
    /\ transform merged = transform first
    /\ length paint_colors = length (triangles merged)
    /\ length (triangles merged) = triangle_count objects.
Proof.
  intros objects extruder_map.
  destruct (merge_objects_painted_succeeds objects extruder_map)
    as (merged & pcs & d & Hok);
    [discriminate | apply map_colors_to_extruders_covers |].
  destruct (merge_objects_painted_Ok _ _ _ _ _ Hok)
    as (first' & rest' & [= <- <-] & _ & Hd & _ & Hm & Hpcs).
  exists merged, pcs, d. split; [exact Hok |].
  split; [exact (proj1 (proj2 (map_colors_to_extruders_inv objects)) _ _ Hd) |].
  rewrite Hm, Hpcs. cbn [name obj_id vertices transform triangles].
  rewrite length_paint_tags, length_shifted_triangles.
  split_and!; reflexivity.
Qed.

End MergerMore.

Lemma merge_objects_painted_missing_color_witness :
  let obj := {| name := "b"; obj_id := 2; vertices := []; triangles := [];
                color := "#0000BB"; transform := "" |} in
  obj ∈ [obj]
  /\ ({[ "#AA0000" := 1 ]} : gmap string Z) !! color obj = None
  /\ @merge_objects_painted plain_builtins [obj] {[ "#AA0000" := 1 ]}
     = Raise KeyError.
Proof.
  intros obj.
  assert (H1 : obj ∈ [obj]) by left.
  assert (H2 : ({[ "#AA0000" := 1 ]} : gmap string Z) !! color obj = None)
    by reflexivity.
  exact (conj H1 (conj H2 (merge_objects_painted_missing_color _ _ obj H1 H2))).
Defined.

Lemma merge_objects_painted_one_color_witness :
  let obj := {| name := "a"; obj_id := 1;
                vertices := [pt "0" "0" "0"; pt "1" "0" "0"; pt "0" "1" "0"];
                triangles := [(0, 1, 2); (0, 2, 1)];
                color := "#AA0000"; transform := "" |} in
  [obj; obj] <> []
  /\ (forall o, o ∈ [obj; obj] -> color o = "#AA0000")
  /\ ({[ "#AA0000" := 1 ]} : gmap string Z) !! "#AA0000" = Some 1
  /\ exists merged,
       merge_objects_painted [obj; obj] {[ "#AA0000" := 1 ]}
       = Ok (merged, [""; ""; ""; ""], 1)
       /\ color merged = "#AA0000".
Proof.
  intros obj.
  assert (H1 : [obj; obj] <> []) by discriminate.
  assert (H2 : forall o, o ∈ [obj; obj] -> color o = "#AA0000").
  { intros o Ho. apply list_elem_of_In in Ho.
    destruct Ho as [<- | [<- | []]]; reflexivity. }
  assert (H3 : ({[ "#AA0000" := 1 ]} : gmap string Z) !! "#AA0000" = Some 1)
    by reflexivity.
  exact (conj H1 (conj H2 (conj H3
           (merge_objects_painted_one_color [obj; obj] _ "#AA0000" 1 H1 H2 H3)))).
Defined.

Lemma merge_objects_painted_geometry_witness :
  exists a b merged paint_colors,
    painted_objects = [a] ++ b :: []
    /\ merge_objects_painted painted_objects
         (map_colors_to_extruders painted_objects)
       = Ok (merged, paint_colors, 2)
    /\ (forall i, (i < length (vertices b))%nat ->
          vertices merged !! (3 + i)%nat = vertices b !! i)
    /\ (forall j, (j < length (triangles b))%nat ->
          triangles merged !! (2 + j)%nat
          = shift_triangle 3 <$> triangles b !! j
          /\ paint_colors !! (2 + j)%nat = Some "").
Proof.
  eexists _, _, _, _.
  split; [reflexivity |]. split; [exact merge_objects_painted_example |].
  match goal with
  | |- (forall i, _ -> _ = vertices ?b !! i) /\ _ =>
      exact (merge_objects_painted_geometry painted_objects [_] [] b _ _ _ _
               merge_objects_painted_example eq_refl)
  end.
Defined.

(** ** The mesh extractor *)

Section MeshFacts.
Context `{PyBuiltins}.

Lemma float_attr_error (x : option string) (e : exn) :
  float_attr x = Raise e -> e = TypeError \/ e = ValueError.
Proof.
  unfold float_attr. destruct x as [s |]; [| intros [= <-]; auto].
  destruct (py_float s); [discriminate | intros [= <-]; auto].
Qed.

Lemma mesh_vertices_Ok (vs : list Element) :
  forall acc res,
  mesh_vertices vs acc = Ok res ->
  exists new, res = acc ++ new /\ Forall2 vertex_of vs new.
Proof.
  induction vs as [| v vs IH]; intros acc res.
  - intros [= <-]. exists []. split; [now rewrite app_nil_r | constructor].
  - cbn [mesh_vertices].
    destruct (float_attr (get v "x")) as [x |] eqn:Ex; [| discriminate].
    destruct (float_attr (get v "y")) as [y |] eqn:Ey; [| discriminate].
    destruct (float_attr (get v "z")) as [z |] eqn:Ez; [| discriminate].
    cbn [mbind result_bind]. intros (new & -> & Hnew)%IH.
    exists ((x, y, z) :: new). split; [now rewrite <- app_assoc |].
    constructor; [| exact Hnew]. repeat split; assumption.
Qed.

Lemma mesh_vertices_bad (vs : list Element) :
  Exists bad_vertex vs ->
  forall acc, exists e,
    mesh_vertices vs acc = Raise e /\ (e = TypeError \/ e = ValueError).
Proof.
  induction vs as [| v vs IH]; intros Hbad acc.
  - apply Exists_nil in Hbad. contradiction.
  - cbn [mesh_vertices].
    destruct (float_attr (get v "x")) as [x | e] eqn:Ex;
      [| exists e; split; [reflexivity | eapply float_attr_error, Ex]].
    destruct (float_attr (get v "y")) as [y | e] eqn:Ey;
      [| exists e; split; [reflexivity | eapply float_attr_error, Ey]].
    destruct (float_attr (get v "z")) as [z | e] eqn:Ez;
      [| exists e; split; [reflexivity | eapply float_attr_error, Ez]].
    cbn [mbind result_bind]. apply IH.
    apply Exists_cons in Hbad as [(key & e & Hkey & He) | Htl]; [| exact Htl].
    exfalso. apply list_elem_of_In in Hkey. cbn in Hkey.
    destruct Hkey as [<- | [<- | [<- | []]]]; congruence.
Qed.

Lemma mesh_triangles_Ok (color_map : nat) (ts : list Element) :
  forall acc votes h h' res votes',
  mesh_triangles color_map ts acc votes h = (h', Ok (res, votes')) ->
  exists new,
    res = acc ++ new
    /\ Forall2 triangle_of ts new
    /\ (Forall no_vote ts -> votes' = votes).
Proof.
  induction ts as [| t ts IH]; intros acc votes h h' res votes'.
  - intros [= _ <- <-]. exists [].
    split; [now rewrite app_nil_r |]. split; [constructor | reflexivity].
  - cbn [mesh_triangles]. rewrite py_bind_run. unfold lift at 1.
    destruct (int_attr (get t "v1")) as [v1 |] eqn:E1; [| discriminate].
    rewrite py_bind_run. unfold lift at 1.
    destruct (int_attr (get t "v2")) as [v2 |] eqn:E2; [| discriminate].
    rewrite py_bind_run. unfold lift at 1.
    destruct (int_attr (get t "v3")) as [v3 |] eqn:E3; [| discriminate].
    rewrite py_bind_run.
    match goal with |- context [(if ?b then ?x else ?y) h] =>
      destruct ((if b then x else y) h) as [h1 [votes1 | e]] eqn:Ev end;
      [| discriminate].
    intros (new & -> & Hnew & Hvotes)%IH.
    exists ((v1, v2, v3) :: new). split; [now rewrite <- app_assoc |].
    split; [constructor; [repeat split; assumption | exact Hnew] |].
    intros [Ht Hts]%Forall_cons. rewrite (Hvotes Hts).
    unfold no_vote in Ht. rewrite Ht in Ev. injection Ev as _ <-. reflexivity.
Qed.

(** A mesh that parses has one vertex per [vertex] element and one triangle
    per [triangle] element, in document order and with the parsed values
    (no vertex is merged with another); the store is unchanged; without any
    triangle that carries both [pid] and [p1] there is no voted color. *)
Theorem parse_mesh_Ok (mesh_elem : Element) (color_map : nat) (h h' : Heap)
    (vertices : list Vertex) (triangles : list Triangle)
    (dominant : option string) :
  _parse_mesh mesh_elem color_map h = (h', Ok (vertices, triangles, dominant)) ->
  h' = h
  /\ Forall2 vertex_of (iter (qname NS_3MF "vertex") mesh_elem) vertices
  /\ Forall2 triangle_of (iter (qname NS_3MF "triangle") mesh_elem) triangles
  /\ (Forall no_vote (iter (qname NS_3MF "triangle") mesh_elem) ->
      dominant = None).
Proof.
  intros Hrun.
  pose proof (read_only_parse_mesh mesh_elem color_map h) as Hro.
  rewrite Hrun in Hro. cbn [fst] in Hro. split; [exact Hro |].
  unfold _parse_mesh in Hrun. rewrite py_bind_run in Hrun. unfold lift at 1 in Hrun.
  destruct (mesh_vertices _ []) as [vs |] eqn:Ev; [| discriminate].
  apply mesh_vertices_Ok in Ev as (newv & -> & Hvs).
  rewrite py_bind_run in Hrun.
  destruct (mesh_triangles color_map _ [] [] h) as [h1 [[ts votes] | e]] eqn:Et;
    [| discriminate].
  apply mesh_triangles_Ok in Et as (newt & -> & Hts & Hvotes).
  rewrite py_bind_run in Hrun. unfold lift at 1 in Hrun.
  destruct votes as [| vote votes].
  - injection Hrun as _ <- <- <-. split_and!; auto.
  - destruct (py_max _ _) as [c |]; [| discriminate].
    cbn [mbind result_bind] in Hrun. injection Hrun as _ <- <- <-.
    split_and!; auto. intros Hnone. specialize (Hvotes Hnone). discriminate.
Qed.

(** A vertex element with a missing or non-numeric coordinate makes the
    extractor raise [TypeError] (missing) or [ValueError] (non-numeric)
    and return no mesh; the store is unchanged. *)
Theorem parse_mesh_bad_vertex (mesh_elem : Element) (color_map : nat) (h : Heap) :
  Exists bad_vertex (iter (qname NS_3MF "vertex") mesh_elem) ->
  exists e,
    _parse_mesh mesh_elem color_map h = (h, Raise e)
    /\ (e = TypeError \/ e = ValueError).
Proof.
  intros Hbad. destruct (mesh_vertices_bad _ Hbad []) as (e & He & Hkind).
  exists e. split; [| exact Hkind].
  unfold _parse_mesh. rewrite py_bind_run. unfold lift. rewrite He. reflexivity.
Qed.

End MeshFacts.

Lemma parse_mesh_Ok_witness :
  @_parse_mesh plain_builtins two_triangle_mesh 0 empty_heap
  = (empty_heap,
     Ok ([pt "0" "0" "0"; pt "1" "0" "0"; pt "0" "1" "0"; pt "0" "0" "1"],
         [(0, 1, 2); (0, 2, 3)], None))
  /\ Forall2 vertex_of (iter (qname NS_3MF "vertex") two_triangle_mesh)
       [pt "0" "0" "0"; pt "1" "0" "0"; pt "0" "1" "0"; pt "0" "0" "1"]
  /\ Forall2 triangle_of (iter (qname NS_3MF "triangle") two_triangle_mesh)
       [(0, 1, 2); (0, 2, 3)].
Proof.
  assert (H1 : @_parse_mesh plain_builtins two_triangle_mesh 0 empty_heap
               = (empty_heap,
                  Ok ([pt "0" "0" "0"; pt "1" "0" "0"; pt "0" "1" "0";
                       pt "0" "0" "1"],
                      [(0, 1, 2); (0, 2, 3)], None)))
    by (vm_compute; reflexivity).
  pose proof (parse_mesh_Ok _ _ _ _ _ _ _ H1) as (_ & Hv & Ht & _).
  exact (conj H1 (conj Hv Ht)).
Defined.

Lemma parse_mesh_bad_vertex_witness :
  let mesh := el "mesh" []
                [el "vertices" [] [el "vertex" [("x", "0"); ("y", "1")] []]] in
  Exists (@bad_vertex plain_builtins) (iter (qname NS_3MF "vertex") mesh)
  /\ exists e,
       @_parse_mesh plain_builtins mesh 0 empty_heap = (empty_heap, Raise e)
       /\ (e = TypeError \/ e = ValueError).
Proof.
  intros mesh.
  assert (H1 : Exists (@bad_vertex plain_builtins)
                 (iter (qname NS_3MF "vertex") mesh)).
  { apply Exists_cons_hd. exists "z", TypeError.
    split; [| reflexivity]. apply list_elem_of_In. cbn. auto. }
  exact (conj H1 (parse_mesh_bad_vertex mesh 0 empty_heap H1)).
Defined.

(** ** The color map builder *)

Section ColorMapFacts.
Context `{PyBuiltins}.





End ColorMapFacts.


(** ** The resolver and the placement of the resolved objects *)

Section ResolverMore.
Context `{PyBuiltins}.

Lemma mesh_frame_trans (h1 h2 h3 : Heap) :
  mesh_frame h1 h2 -> mesh_frame h2 h3 -> mesh_frame h1 h3.
Proof. unfold mesh_frame. eauto. Qed.

Lemma keeps_meshes_ret {A} (a : A) : preserves_meshes (mret a : Py A).
Proof. intros h r m Hm. exact Hm. Qed.

Lemma keeps_meshes_lift {A} (x : result A) : preserves_meshes (lift x).
Proof. intros h r m Hm. exact Hm. Qed.

Lemma keeps_meshes_read_only {A} (c : Py A) : read_only c -> preserves_meshes c.
Proof. intros Hc h r m. now rewrite Hc. Qed.

Lemma keeps_meshes_bind {A B} (c : Py A) (k : A -> Py B) :
  preserves_meshes c -> (forall a, preserves_meshes (k a)) ->
  preserves_meshes (c ≫= k).
Proof.
  intros Hc Hk h. rewrite py_bind_run. specialize (Hc h).
  destruct (c h) as [h' [a | e]]; cbn [fst] in *; [| exact Hc].
  eapply mesh_frame_trans; [exact Hc | apply Hk].
Qed.

Lemma keeps_meshes_new_mesh (m : MeshObject) : preserves_meshes (new_mesh m).
Proof. intros h r m' Hr. cbn. apply lookup_app_l_Some, Hr. Qed.

Lemma keeps_meshes_new_dict (d : gmap (Z * Z) string) :
  preserves_meshes (new_dict d).
Proof. intros h r m Hr. exact Hr. Qed.

Lemma keeps_meshes_extract_color_map (root : Element) :
  preserves_meshes (_extract_color_map root).
Proof.
  intros h r m. destruct (extract_color_map_run root h) as (Heq & _).
  cbv zeta in Heq. now rewrite Heq.
Qed.

Lemma keeps_meshes_sub_model_objects (objs : list Element) (ref_id : Z)
    (merged : nat) :
  preserves_meshes (sub_model_objects objs ref_id merged).
Proof.
  induction objs as [| obj_elem objs IH]; cbn [sub_model_objects].
  - apply keeps_meshes_ret.
  - apply keeps_meshes_bind; [apply keeps_meshes_lift | intros oid].
    destruct (oid =? ref_id); [| exact IH].
    destruct (find _ obj_elem) as [mesh_elem |]; [| exact IH].
    apply keeps_meshes_bind;
      [apply keeps_meshes_read_only, read_only_object_color | intros c].
    apply keeps_meshes_bind;
      [apply keeps_meshes_read_only, read_only_mesh_object_of | intros m].
    apply keeps_meshes_bind; [apply keeps_meshes_new_mesh | intros r].
    apply keeps_meshes_ret.
Qed.

Lemma keeps_meshes_parse_sub_model (zf : ZipFile) (sub_path : string)
    (ref_id : Z) (color_map : nat) :
  preserves_meshes (_parse_sub_model zf sub_path ref_id color_map).
Proof.
  unfold _parse_sub_model.
  destruct (decide _); [| apply keeps_meshes_ret].
  apply keeps_meshes_bind; [apply keeps_meshes_lift | intros root].
  apply keeps_meshes_bind; [apply keeps_meshes_extract_color_map | intros sub].
  apply keeps_meshes_bind;
    [apply keeps_meshes_read_only, read_only_read_dict | intros amb].
  apply keeps_meshes_bind;
    [apply keeps_meshes_read_only, read_only_read_dict | intros loc].
  apply keeps_meshes_bind; [apply keeps_meshes_new_dict | intros merged].
  apply keeps_meshes_sub_model_objects.
Qed.

Lemma keeps_meshes_resolve_components (resolve : Z -> Py (list nat))
    (zf : ZipFile) (color_map : nat) (comps : list Element) :
  (forall ref_id, preserves_meshes (resolve ref_id)) ->
  forall results,
  preserves_meshes (resolve_components resolve zf color_map comps results).
Proof.
  intros Hres. induction comps as [| comp comps IH]; intros results;
    cbn [resolve_components].
  - apply keeps_meshes_ret.
  - apply keeps_meshes_bind; [apply keeps_meshes_lift | intros ref_id].
    apply keeps_meshes_bind; [| intros sub; apply IH].
    destruct (truthy _); [apply keeps_meshes_parse_sub_model | apply Hres].
Qed.

Lemma keeps_meshes_resolve_object (depth : nat) :
  forall obj_id all_objects zf model_path color_map,
  preserves_meshes
    (_resolve_object depth obj_id all_objects zf model_path color_map).
Proof.
  induction depth as [| depth IH]; intros obj_id all_objects zf model_path cm;
    cbn [_resolve_object].
  - apply keeps_meshes_lift.
  - destruct (all_objects !! obj_id) as [[r | obj] |];
      try apply keeps_meshes_ret.
    destruct (find _ obj) as [components |]; [| apply keeps_meshes_ret].
    apply keeps_meshes_resolve_components. intros ref_id. apply IH.
Qed.

(** Resolving an object id changes no [MeshObject] that exists already
    (it may only create new ones, for the objects of sub-parts), whatever
    its outcome; the same holds for [_parse_sub_model]. *)
Theorem resolve_object_keeps_meshes (depth : nat) (obj_id : Z)
    (all_objects : gmap Z resource) (zf : ZipFile) (model_path : string)
    (color_map : nat) (h : Heap) (sub_path : string) :
  mesh_frame h
    (_resolve_object depth obj_id all_objects zf model_path color_map h).1
  /\ mesh_frame h (_parse_sub_model zf sub_path obj_id color_map h).1.
Proof.
  split;
    [apply keeps_meshes_resolve_object | apply keeps_meshes_parse_sub_model].
Qed.

Lemma resolve_object_unfold (depth : nat) (obj_id : Z)
    (all_objects : gmap Z resource) (zf : ZipFile) (model_path : string)
    (color_map : nat) :
  _resolve_object (S depth) obj_id all_objects zf model_path color_map
  = match all_objects !! obj_id with
    | None => mret []
    | Some (RMesh r) => mret [r]
    | Some (RElem obj) =>
        match find (qname NS_3MF "components") obj with
        | Some components =>
            resolve_components
              (fun ref_id =>
                 _resolve_object depth ref_id all_objects zf model_path color_map)
              zf color_map
              (findall (qname NS_3MF "component") components) []
        | None => mret []
        end
    end.
Proof. reflexivity. Qed.

Lemma resolve_components_flat (resolve : Z -> Py (list nat))
    (all_objects : gmap Z resource) (zf : ZipFile) (color_map : nat)
    (h : Heap) (comps : list Element) (ids : list Z) :
  Forall2 local_ref comps ids ->
  Forall (fun id => resolve id h = (h, Ok (mesh_of_id all_objects id))) ids ->
  forall results,
  resolve_components resolve zf color_map comps results h
  = (h, Ok (results ++ concat (map (mesh_of_id all_objects) ids))).
Proof.
  induction 1 as [| comp id comps ids [Hid Hpath] _ IH]; intros Hres results.
  - cbn. now rewrite app_nil_r.
  - apply Forall_cons in Hres as [Hres1 Hres].
    cbn [resolve_components]. rewrite py_bind_run. unfold lift. rewrite Hid, Hpath.
    rewrite py_bind_run, Hres1, (IH Hres). cbn [map concat].
    now rewrite app_assoc.
Qed.

(** A container all of whose components stay in the part and name a mesh
    object or an unknown id resolves to the named mesh objects in declared
    order; an unknown id contributes nothing and is no error; the store is
    unchanged. *)
Theorem resolve_flat_container (depth : nat) (obj_id : Z)
    (all_objects : gmap Z resource) (zf : ZipFile) (model_path : string)
    (color_map : nat) (h : Heap) (obj components : Element) (ids : list Z) :
  all_objects !! obj_id = Some (RElem obj) ->
  find (qname NS_3MF "components") obj = Some components ->
  Forall2 local_ref (findall (qname NS_3MF "component") components) ids ->
  Forall (not_container all_objects) ids ->
  _resolve_object (S (S depth)) obj_id all_objects zf model_path color_map h
  = (h, Ok (concat (map (mesh_of_id all_objects) ids))).
Proof.
  intros Hobj Hfind Hrefs Hflat.
  rewrite resolve_object_unfold, Hobj, Hfind.
  change (concat (map (mesh_of_id all_objects) ids))
    with ([] ++ concat (map (mesh_of_id all_objects) ids)).
  apply (resolve_components_flat _ all_objects); [exact Hrefs |].
  eapply Forall_impl; [exact Hflat |].
  intros id Hnc. rewrite resolve_object_unfold. unfold mesh_of_id.
  destruct (all_objects !! id) as [[r | e] |] eqn:E; try reflexivity.
  exfalso. exact (Hnc e E).
Qed.

(** A container one of whose components, the first, names the container
    itself is never resolved: at every depth the recursion runs out
    ([RecursionError]), and no object is touched. *)
Theorem resolve_self_reference (depth : nat) (obj_id : Z)
    (all_objects : gmap Z resource) (zf : ZipFile) (model_path : string)
    (color_map : nat) (h : Heap) (obj components comp : Element)
    (rest : list Element) :
  all_objects !! obj_id = Some (RElem obj) ->
  find (qname NS_3MF "components") obj = Some components ->
  findall (qname NS_3MF "component") components = comp :: rest ->
  local_ref comp obj_id ->
  _resolve_object depth obj_id all_objects zf model_path color_map h
  = (h, Raise RecursionError).
Proof.
  intros Hobj Hfind Hcomps [Hid Hpath].
  induction depth as [| depth IH]; [reflexivity |].
  rewrite resolve_object_unfold, Hobj, Hfind, Hcomps.
  cbn [resolve_components]. rewrite py_bind_run. unfold lift. rewrite Hid, Hpath.
  rewrite py_bind_run, IH. reflexivity.
Qed.

Lemma with_transform_twice (m : MeshObject) (t1 t2 : string) :
  with_transform (with_transform m t1) t2 = with_transform m t2.
Proof. reflexivity. Qed.


End ResolverMore.

Lemma resolve_flat_container_witness :
  let all_objects : gmap Z resource :=
    {[ 1 := RMesh 0; 2 := RElem half_dangling ]} in
  all_objects !! 2 = Some (RElem half_dangling)
  /\ Forall2 local_ref
       (findall (qname NS_3MF "component")
          (el "components" []
             [el "component" [("objectid", "1")] [];
              el "component" [("objectid", "9")] []]))
       [1; 9]
  /\ Forall (not_container all_objects) [1; 9]
  /\ _resolve_object 2 2 all_objects [] "3D/3dmodel.model" 0 two_meshes
     = (two_meshes, Ok [0%nat]).
Proof.
  intros all_objects.
  assert (H1 : all_objects !! 2 = Some (RElem half_dangling)) by reflexivity.
  assert (H2 : find (qname NS_3MF "components") half_dangling
               = Some (el "components" []
                         [el "component" [("objectid", "1")] [];
                          el "component" [("objectid", "9")] []]))
    by reflexivity.
  assert (H3 : Forall2 local_ref
                 (findall (qname NS_3MF "component")
                    (el "components" []
                       [el "component" [("objectid", "1")] [];
                        el "component" [("objectid", "9")] []]))
                 [1; 9]).
  { assert (Hc : findall (qname NS_3MF "component")
                   (el "components" []
                      [el "component" [("objectid", "1")] [];
                       el "component" [("objectid", "9")] []])
                 = [el "component" [("objectid", "1")] [];
                    el "component" [("objectid", "9")] []]) by reflexivity.
    rewrite Hc.
    repeat (apply List.Forall2_cons; [split; reflexivity |]).
    apply List.Forall2_nil. }
  assert (H4 : Forall (not_container all_objects) [1; 9]).
  { repeat (apply List.Forall_cons; [intros obj; discriminate |]).
    apply List.Forall_nil. }
  split_and!; try assumption.
  exact (resolve_flat_container 0 2 all_objects [] "3D/3dmodel.model" 0
           two_meshes half_dangling _ [1; 9] H1 H2 H3 H4).
Defined.

Lemma resolve_self_reference_witness :
  let all_objects : gmap Z resource := {[ 2 := RElem self_loop ]} in
  all_objects !! 2 = Some (RElem self_loop)
  /\ local_ref (el "component" [("objectid", "2")] []) 2
  /\ _resolve_object 1000 2 all_objects [] "3D/3dmodel.model" 0 two_meshes
     = (two_meshes, Raise RecursionError).
Proof.
  intros all_objects.
  assert (H1 : all_objects !! 2 = Some (RElem self_loop)) by reflexivity.
  assert (H2 : find (qname NS_3MF "components") self_loop
               = Some (el "components" []
                         [el "component" [("objectid", "2")] []]))
    by reflexivity.
  assert (H3 : findall (qname NS_3MF "component")
                 (el "components" [] [el "component" [("objectid", "2")] []])
               = [el "component" [("objectid", "2")] []]) by reflexivity.
  assert (H4 : local_ref (el "component" [("objectid", "2")] []) 2)
    by (split; reflexivity).
  split_and!; try assumption.
  exact (resolve_self_reference 1000 2 all_objects [] "3D/3dmodel.model" 0
           two_meshes self_loop _ _ [] H1 H2 H3 H4).
Defined.


(** ** The package emitter *)

Section EmitterFacts.
Context `{PyBuiltins}.
Variable str_float : pyfloat -> string.

Lemma triangle_lines_total (paint_colors : option (list string))
    (triangles : list Triangle) :
  match paint_colors with
  | Some (pc :: pcs) => False
  | _ => True
  end ->
  forall i tris, exists lines,
    triangle_lines paint_colors i triangles tris = inr lines.
Proof.
  intros Hpc. induction triangles as [| [[v1 v2] v3] triangles IH];
    intros i tris; cbn [triangle_lines]; [eauto |].
  destruct paint_colors as [[| pc pcs] |]; [| contradiction |];
    cbn [paint_attr]; apply IH.
Qed.

Lemma triangle_lines_fits (pcs : list string) (triangles : list Triangle) :
  forall i tris,
  (i + length triangles <= length pcs)%nat ->
  exists lines, triangle_lines (Some pcs) i triangles tris = inr lines.
Proof.
  induction triangles as [| [[v1 v2] v3] triangles IH]; intros i tris Hlen;
    cbn [triangle_lines]; [eauto |].
  cbn [length] in Hlen. unfold paint_attr.
  destruct pcs as [| pc0 pcs0] eqn:Epcs; [cbn in Hlen; lia |].
  rewrite <- Epcs in *.
  destruct (lookup_lt_is_Some_2 pcs i ltac:(lia)) as [pc Hpc]. rewrite Hpc.
  destruct (String.eqb pc ""); apply IH; lia.
Qed.

Lemma triangle_lines_short (pcs : list string) (triangles : list Triangle) :
  pcs <> [] ->
  forall i tris,
  (i <= length pcs < i + length triangles)%nat ->
  triangle_lines (Some pcs) i triangles tris = inl IndexError.
Proof.
  intros Hne. induction triangles as [| [[v1 v2] v3] triangles IH];
    intros i tris Hlen; cbn [length] in Hlen; [lia |].
  cbn [triangle_lines]. unfold paint_attr.
  destruct pcs as [| pc0 pcs0] eqn:Epcs; [congruence |].
  rewrite <- Epcs in *.
  destruct (pcs !! i) as [pc |] eqn:Hpc.
  - apply lookup_lt_Some in Hpc.
    destruct (String.eqb pc ""); apply IH; lia.
  - reflexivity.
Qed.

(** Writing a mesh part fails only through the paint-state list: with no
    list, an empty list or a list at least as long as the triangle list it
    succeeds; with a non-empty shorter list it raises [IndexError]. *)
Theorem build_object_model_index (obj : MeshObject) (unit : string)
    (paint_colors : option (list string)) :
  match paint_colors with
  | Some (pc :: pcs) =>
      if decide (length (triangles obj) <= S (length pcs))%nat
      then exists part,
             _build_object_model str_float obj unit paint_colors = inr part
      else _build_object_model str_float obj unit paint_colors = inl IndexError
  | _ => exists part,
           _build_object_model str_float obj unit paint_colors = inr part
  end.
Proof.
  unfold _build_object_model.
  destruct paint_colors as [[| pc pcs] |].
  - destruct (triangle_lines_total (Some []) (triangles obj) I 0%nat [])
      as [lines ->]. eauto.
  - case_decide as Hlen.
    + destruct (triangle_lines_fits (pc :: pcs) (triangles obj) 0 [])
        as [lines ->]; [cbn [length]; lia | eauto].
    + rewrite triangle_lines_short; [reflexivity | discriminate |].
      cbn [length]. lia.
  - destruct (triangle_lines_total None (triangles obj) I 0%nat [])
      as [lines ->]. eauto.
Qed.

Lemma build_object_model_fits (obj : MeshObject) (unit : string)
    (pcs : list string) :
  length pcs = length (triangles obj) ->
  exists part, _build_object_model str_float obj unit (Some pcs) = inr part.
Proof.
  intros Hlen. unfold _build_object_model.
  destruct (triangle_lines_fits pcs (triangles obj) 0 []) as [lines ->];
    [cbn; lia | eauto].
Qed.

Lemma build_object_model_plain (obj : MeshObject) (unit : string) :
  exists part, _build_object_model str_float obj unit None = inr part.
Proof.
  unfold _build_object_model.
  destruct (triangle_lines_total None (triangles obj) I 0%nat []) as [lines ->].
  eauto.
Qed.

Lemma build_object_model_merged (objects : list MeshObject)
    (extruder_map : gmap string Z) (merged : MeshObject)
    (paint_colors : list string) (default_extruder : Z) (unit : string) :
  merge_objects_painted objects extruder_map
  = Ok (merged, paint_colors, default_extruder) ->
  exists part,
    _build_object_model str_float merged unit (Some paint_colors) = inr part.
Proof.
  intros Hok.
  destruct (merge_objects_painted_Ok _ _ _ _ _ Hok)
    as (first & rest & _ & _ & _ & _ & Hm & Hpcs).
  apply build_object_model_fits. rewrite Hm, Hpcs. cbn [triangles].
  now rewrite length_paint_tags, length_shifted_triangles.
Qed.

(** The mesh part of painted mode can be written for whatever the merger
    returns: its paint-state list never runs short. *)
Theorem build_object_model_after_merge (objects : list MeshObject)
    (extruder_map : gmap string Z) (merged : MeshObject)
    (paint_colors : list string) (default_extruder : Z) (unit : string) :
  merge_objects_painted objects extruder_map
  = Ok (merged, paint_colors, default_extruder) ->
  exists part,
    _build_object_model str_float merged unit (Some paint_colors) = inr part.
Proof. exact (build_object_model_merged objects extruder_map _ _ _ unit). Qed.

Lemma settings_objects_missing (extruder_map : gmap string Z)
    (objects : list (Z * MeshObject)) (obj : MeshObject) :
  obj ∈ map snd objects ->
  extruder_map !! color obj = None ->
  forall obj_entries,
  settings_objects extruder_map objects obj_entries = Raise KeyError.
Proof.
  intros Hin Hnone. induction objects as [| [i o] objects IH]; intros acc.
  - apply elem_of_nil in Hin. contradiction.
  - cbn [settings_objects]. unfold getitem.
    destruct (extruder_map !! color o) as [slot |] eqn:E; [| reflexivity].
    cbn [mbind result_bind]. apply IH.
    cbn [map snd] in Hin. apply elem_of_cons in Hin as [-> | Hin];
      [congruence | exact Hin].
Qed.

Lemma settings_objects_covered (extruder_map : gmap string Z)
    (objects : list (Z * MeshObject)) :
  (forall obj, obj ∈ map snd objects -> is_Some (extruder_map !! color obj)) ->
  forall obj_entries, exists lines,
    settings_objects extruder_map objects obj_entries = Ok lines.
Proof.
  induction objects as [| [i o] objects IH]; intros Hcov acc;
    cbn [settings_objects]; [eauto |].
  destruct (Hcov o) as [slot Hslot]; [left |].
  unfold getitem. rewrite Hslot. cbn [mbind result_bind].
  apply IH. intros obj Hobj. apply Hcov. now right.
Qed.

Lemma snd_imap {A B} (g : nat -> A -> B) (l : list A) :
  map snd (imap (fun i x => (g i x, x)) l) = l.
Proof.
  revert g. induction l as [| x l IH]; intros g; [reflexivity |].
  cbn [imap map snd]. f_equal. exact (IH (fun i x => g (S i) x)).
Qed.

Lemma snd_enumerate1 {A} (l : list A) : map snd (enumerate1 l) = l.
Proof. apply (snd_imap (fun i _ => Z.of_nat i + 1)). Qed.

Lemma build_model_settings_cases (objects : list MeshObject)
    (extruder_map : gmap string Z) :
  (covers extruder_map objects ->
   exists settings, _build_model_settings objects extruder_map = Ok settings)
  /\ (forall obj, obj ∈ objects -> extruder_map !! color obj = None ->
      _build_model_settings objects extruder_map = Raise KeyError).
Proof.
  unfold _build_model_settings. split.
  - intros Hcov.
    destruct (settings_objects_covered extruder_map (enumerate1 objects))
      with (obj_entries := @nil string) as [lines ->];
      [rewrite snd_enumerate1; exact Hcov | cbn [mbind result_bind]; eauto].
  - intros obj Hin Hnone.
    rewrite (settings_objects_missing _ _ obj); [reflexivity | | exact Hnone].
    now rewrite snd_enumerate1.
Qed.

(** The settings of multi-object mode can be written exactly when every
    object color has a slot; otherwise the lookup raises [KeyError]. *)
Theorem build_model_settings_slots (objects : list MeshObject)
    (extruder_map : gmap string Z) :
  (covers extruder_map objects ->
   exists settings, _build_model_settings objects extruder_map = Ok settings)
  /\ (forall obj, obj ∈ objects -> extruder_map !! color obj = None ->
      _build_model_settings objects extruder_map = Raise KeyError).
Proof. exact (build_model_settings_cases objects extruder_map). Qed.

End EmitterFacts.

(** ** The writer and the whole conversion *)

Lemma fst_imap_seqZ {A} (l : list A) (k : Z) :
  map fst (imap (fun i (x : A) => (Z.of_nat i + k, x)) l)
  = seqZ k (Z.of_nat (length l)).
Proof.
  revert k. induction l as [| x l IH]; intros k; [reflexivity |].
  cbn [imap map fst length]. rewrite seqZ_cons by lia. f_equal.
  replace (Z.pred (Z.of_nat (S (length l)))) with (Z.of_nat (length l)) by lia.
  rewrite <- IH. f_equal. apply imap_ext. intros i y _. cbn. f_equal. lia.
Qed.

Lemma fst_enumerate1 {A} (l : list A) :
  map fst (enumerate1 l) = range1 (Z.of_nat (length l)).
Proof. apply fst_imap_seqZ. Qed.

Lemma find_model_path_well_known (zf : ZipFile) :
  "3D/3dmodel.model" ∈ namelist zf -> _find_model_path zf = Ok "3D/3dmodel.model".
Proof.
  intros Hin. unfold _find_model_path.
  destruct (decide ("3D/3dmodel.model" ∈ namelist zf)); [reflexivity | contradiction].
Qed.

Section WriterFacts.
Context `{PyBuiltins}.
Variable str_float : pyfloat -> string.

Lemma object_entries_spec (unit : string) (objects : list (Z * MeshObject)) :
  forall written, exists parts,
    object_entries str_float objects unit written = (written ++ parts, inr ())
    /\ map fst parts = map (fun p => object_part_name p.1) objects.
Proof.
  induction objects as [| [i obj] objects IH]; intros written.
  - exists []. cbn. now rewrite app_nil_r.
  - cbn [object_entries].
    destruct (build_object_model_plain str_float obj unit) as [part ->].
    destruct (IH (written ++ [(object_part_name i, part)]))
      as (parts & Hrun & Hnames).
    exists ((object_part_name i, part) :: parts).
    unfold object_part_name in Hrun at 1. rewrite Hrun, <- app_assoc.
    split; [reflexivity |]. cbn [map fst]. now rewrite Hnames.
Qed.

Lemma write_painted_cases (objects : list MeshObject) (unit : string)
    (extruder_map : gmap string Z) (thumbnails : odict string) :
  match merge_objects_painted objects extruder_map with
  | Raise e =>
      write_bambu_3mf str_float objects unit extruder_map thumbnails true
      = (None, inl (Raised e))
  | Ok _ =>
      exists archive,
        write_bambu_3mf str_float objects unit extruder_map thumbnails true
        = (Some archive, inr ())
        /\ map fst archive
           = CORE_NAMES ++ [object_part_name 1; SETTINGS_NAME]
             ++ map fst (thumbnail_entries thumbnails)
  end.
Proof.
  unfold write_bambu_3mf.
  destruct (merge_objects_painted objects extruder_map)
    as [[[merged pcs] d] | e] eqn:Em; [| reflexivity].
  destruct (build_object_model_merged str_float _ _ _ _ _ unit Em)
    as [part ->].
  eexists. split; [reflexivity |].
  cbn [map fst app]. reflexivity.
Qed.

(** Painted mode is all or nothing: when the merger raises, the output
    archive is not even created; otherwise the archive gets, in this
    order, the four leading parts, the part of object 1, the settings and
    the thumbnails. *)
Theorem write_painted_spec (objects : list MeshObject) (unit : string)
    (extruder_map : gmap string Z) (thumbnails : odict string) :
  match merge_objects_painted objects extruder_map with
  | Raise e =>
      write_bambu_3mf str_float objects unit extruder_map thumbnails true
      = (None, inl (Raised e))
  | Ok _ =>
      exists archive,
        write_bambu_3mf str_float objects unit extruder_map thumbnails true
        = (Some archive, inr ())
        /\ map fst archive
           = CORE_NAMES ++ [object_part_name 1; SETTINGS_NAME]
             ++ map fst (thumbnail_entries thumbnails)
  end.
Proof. exact (write_painted_cases objects unit extruder_map thumbnails). Qed.

Lemma write_multi_object_cases (objects : list MeshObject) (unit : string)
    (extruder_map : gmap string Z) (thumbnails : odict string) :
  let names :=
    CORE_NAMES
    ++ map object_part_name (range1 (Z.of_nat (length objects))) in
  (covers extruder_map objects ->
   exists archive,
     write_bambu_3mf str_float objects unit extruder_map thumbnails false
     = (Some archive, inr ())
     /\ map fst archive
        = names ++ [SETTINGS_NAME] ++ map fst (thumbnail_entries thumbnails))
  /\ (forall obj, obj ∈ objects -> extruder_map !! color obj = None ->
      exists archive,
        write_bambu_3mf str_float objects unit extruder_map thumbnails false
        = (Some archive, inl (Raised KeyError))
        /\ map fst archive = names).
Proof.
  intros names. unfold write_bambu_3mf.
  match goal with |- context [object_entries _ _ _ ?w] =>
    destruct (object_entries_spec unit (enumerate1 objects) w)
      as (parts & -> & Hparts) end.
  assert (Hnames : map fst parts
                   = map object_part_name (range1 (Z.of_nat (length objects)))).
  { rewrite Hparts, <- fst_enumerate1, map_map. reflexivity. }
  unfold entry in *. split.
  - intros Hcov.
    destruct (proj1 (build_model_settings_cases objects extruder_map) Hcov)
      as [settings ->].
    eexists. split; [reflexivity |].
    rewrite !map_app, Hnames. cbn [map fst]. unfold names.
    now rewrite <- !app_assoc.
  - intros obj Hin Hnone.
    rewrite (proj2 (build_model_settings_cases objects extruder_map) obj Hin Hnone).
    eexists. split; [reflexivity |].
    rewrite map_app, Hnames. reflexivity.
Qed.

(** Multi-object mode writes as it goes: with a slot for every color the
    archive gets the four leading parts, one part per object, numbered
    from 1, the settings and the thumbnails (also for no object at all);
    with a color that has no slot it raises [KeyError] when the leading
    parts and the object parts are already written, and the archive is
    left without settings. *)
Theorem write_multi_object_spec (objects : list MeshObject) (unit : string)
    (extruder_map : gmap string Z) (thumbnails : odict string) :
  let names :=
    CORE_NAMES
    ++ map object_part_name (range1 (Z.of_nat (length objects))) in
  (covers extruder_map objects ->
   exists archive,
     write_bambu_3mf str_float objects unit extruder_map thumbnails false
     = (Some archive, inr ())
     /\ map fst archive
        = names ++ [SETTINGS_NAME] ++ map fst (thumbnail_entries thumbnails))
  /\ (forall obj, obj ∈ objects -> extruder_map !! color obj = None ->
      exists archive,
        write_bambu_3mf str_float objects unit extruder_map thumbnails false
        = (Some archive, inl (Raised KeyError))
        /\ map fst archive = names).
Proof. exact (write_multi_object_cases objects unit extruder_map thumbnails). Qed.

Lemma deref_all_length (h : Heap) (refs : list nat) (objs : list MeshObject) :
  deref_all h refs = Some objs -> length objs = length refs.
Proof.
  unfold deref_all. intros Hm. apply mapM_Some_1 in Hm.
  symmetry. exact (Forall2_length _ _ _ Hm).
Qed.

(** The whole conversion, once the input is parsed (the references of the
    parsed model standing for [objs]): with no object it exits with code 1
    and writes nothing; otherwise it never raises, in either mode, and the
    archive it writes has the parts of that mode in order, with
    [3D/3dmodel.model] among them, so that the reader finds the root part
    of the output again. *)
Theorem run_main_spec (depth : nat) (zf : ZipFile) (thumbnails : odict string)
    (multi_object : bool) (h : Heap) (parsed : ParsedModel)
    (objs : list MeshObject) :
  parse_input_3mf depth zf empty_heap = (h, Ok parsed) ->
  deref_all h (objects parsed) = Some objs ->
  if decide (objs = [])
  then run_main str_float depth zf thumbnails multi_object = Exited 1
  else exists archive,
         run_main str_float depth zf thumbnails multi_object = Written archive
         /\ map fst archive
            = CORE_NAMES
              ++ (if multi_object
                  then map object_part_name (range1 (Z.of_nat (length objs)))
                  else [object_part_name 1])
              ++ [SETTINGS_NAME] ++ map fst (thumbnail_entries thumbnails)
         /\ forall out : ZipFile,
              namelist out = map fst archive ->
              _find_model_path out = Ok "3D/3dmodel.model".
Proof.
  intros Hparse Hderef. pose proof (deref_all_length _ _ _ Hderef) as Hlen.
  unfold run_main. rewrite Hparse.
  case_decide as Hobjs.
  - subst objs. destruct (objects parsed); [reflexivity | discriminate].
  - destruct (objects parsed) as [| r refs] eqn:Erefs;
      [destruct objs; [congruence | discriminate] |].
    rewrite Hderef.
    assert (Hfound : forall (archive : list (string * string)) rest,
               map fst archive = CORE_NAMES ++ rest ->
               forall out : ZipFile,
               namelist out = map fst archive ->
               _find_model_path out = Ok "3D/3dmodel.model").
    { intros archive rest Hnames out Hout. apply find_model_path_well_known.
      rewrite Hout, Hnames. unfold CORE_NAMES. set_solver. }
    destruct (map_colors_to_extruders_covers objs) as [Hcov _].
    destruct multi_object; cbn [negb].
    + destruct (proj1 (write_multi_object_cases objs (unit_ parsed)
                         (map_colors_to_extruders objs) thumbnails) Hcov)
        as (archive & -> & Hnames).
      exists archive. rewrite <- app_assoc in Hnames. eauto.
    + pose proof (write_painted_cases objs (unit_ parsed)
                    (map_colors_to_extruders objs) thumbnails) as Hw.
      destruct (merge_objects_painted_succeeds objs _ Hobjs Hcov)
        as (merged & pcs & d & Hok).
      rewrite Hok in Hw. destruct Hw as (archive & -> & Hnames).
      exists archive. split; [reflexivity |]. split; [exact Hnames | eauto].
Qed.

End WriterFacts.

#[local] Existing Instance plain_builtins.

Lemma build_object_model_after_merge_witness :
  exists merged paint_colors default_extruder part,
    merge_objects_painted painted_objects (map_colors_to_extruders painted_objects)
    = Ok (merged, paint_colors, default_extruder)
    /\ _build_object_model plain_str_float merged "millimeter"
         (Some paint_colors) = inr part.
Proof.
  destruct (merge_objects_painted painted_objects
              (map_colors_to_extruders painted_objects))
    as [[[merged pcs] d] | e] eqn:Em; [| vm_compute in Em; discriminate].
  destruct (build_object_model_after_merge plain_str_float
              painted_objects _ merged pcs d "millimeter" Em) as [part Hpart].
  exists merged, pcs, d, part. split; [reflexivity | exact Hpart].
Defined.

Lemma run_main_spec_witness :
  exists archive,
    run_main plain_str_float 8 instanced_zip [] false = Written archive
    /\ map fst archive
       = ["[Content_Types].xml"; "_rels/.rels"; "3D/3dmodel.model";
          "3D/_rels/3dmodel.model.rels"; "3D/Objects/object_1.model";
          "Metadata/model_settings.config"].
Proof.
  destruct (parse_input_3mf 8 instanced_zip empty_heap) as [h [parsed | e]] eqn:Ep;
    [| vm_compute in Ep; discriminate].
  destruct (deref_all h (objects parsed)) as [objs |] eqn:Ed;
    [| vm_compute in Ep; injection Ep as <- <-; vm_compute in Ed; discriminate].
  pose proof (run_main_spec plain_str_float 8 instanced_zip [] false
                h parsed objs Ep Ed) as Hmain.
  destruct (decide (objs = [])) as [-> | _].
  - vm_compute in Ep. injection Ep as <- <-. vm_compute in Ed. discriminate.
  - destruct Hmain as (archive & Hrun & Hnames & _).
    exists archive. split; [exact Hrun | exact Hnames].
Defined.
